(** * GeoJSON streaming API: spatial filter, decimation and combination

    A shallow embedding of [main.py]: the partition registry
    [geojson_parts], its loader [load_geojson_parts], the range query
    [get_geojson_by_bounds] and the summary [get_info], together with the
    library operations they are written with (shapely's [box] and
    [intersects], pandas' boolean mask, [iloc[::k]] and [concat],
    geopandas' [total_bounds] and [to_json]).

    Conventions.
    - A Python [float] that is neither NaN nor infinite is a rational, and
      comparisons of such floats are comparisons of rationals: coordinates
      are [Q].
    - A Python [int] is unbounded: [zoom] is [Z]; lengths are [nat].
    - The geometries covered are those for which intersection with a
      rectangle is decided by coordinate comparisons alone: points,
      multi-points and axis-parallel rectangular cells.  Every row carries
      a geometry.
    - An exception is a value: a function that can raise returns
      [result A], and [try ... except Exception] is a [match] on it. *)

From Stdlib Require Import QArith Lqa.
From stdpp Require Import prelude strings list pretty.

Open Scope nat_scope.

(** ** Exceptions *)

Inductive PyException : Type :=
  | ValueError_NoObjectsToConcatenate
  | ValueError_CannotDetermineCommonCRS (names : list string)
  | ValueError_CRSMismatch
  | IOError (path : string).

Inductive result (A : Type) : Type :=
  | Ok (a : A)
  | Raise (e : PyException).
Arguments Ok {A} a.
Arguments Raise {A} e.

(** ** Geometry (shapely) *)

Module Geometry.

Definition coord : Type := (Q * Q)%type.

(** The feature geometries of the model.  [Cell a b] is the rectangular
    polygon with opposite corners [a] and [b]. *)
Inductive t : Type :=
  | Point (p : coord)
  | MultiPoint (p : coord) (ps : list coord)
  | Cell (a b : coord).

(** A polygon given by its exterior ring, as [Polygon(coords)]. *)
Record Polygon : Type := mkPolygon { exterior : list coord }.

(** [shapely.geometry.box(minx, miny, maxx, maxy)]:
    [Polygon([(maxx, miny), (maxx, maxy), (minx, maxy), (minx, miny)])].
    The arguments are not compared with each other. *)
Definition box (minx miny maxx maxy : Q) : Polygon :=
  mkPolygon [(maxx, miny); (maxx, maxy); (minx, maxy); (minx, miny)].

Definition qmin (a b : Q) : Q := if Qle_bool a b then a else b.
Definition qmax (a b : Q) : Q := if Qle_bool a b then b else a.

(** An envelope is [(minx, miny, maxx, maxy)], the layout of [bounds]. *)
Definition envelope : Type := (Q * Q * Q * Q)%type.

Definition env_of_coord (p : coord) : envelope :=
  (fst p, snd p, fst p, snd p).

Definition env_union (e1 e2 : envelope) : envelope :=
  let '(x1, y1, X1, Y1) := e1 in
  let '(x2, y2, X2, Y2) := e2 in
  (qmin x1 x2, qmin y1 y2, qmax X1 X2, qmax Y1 Y2).

Definition env_of_coords (p : coord) (ps : list coord) : envelope :=
  fold_left (λ e q, env_union e (env_of_coord q)) ps (env_of_coord p).

(** [geom.bounds] *)
Definition bounds (g : t) : envelope :=
  match g with
  | Point p => env_of_coord p
  | MultiPoint p ps => env_of_coords p ps
  | Cell a b => env_of_coords a [b]
  end.

(** The region of a polygon whose ring is an axis-parallel rectangle is
    the envelope of its ring, whatever the direction or the starting
    corner of the ring.  A ring without coordinates is the empty
    polygon. *)
Definition region (poly : Polygon) : option envelope :=
  match exterior poly with
  | [] => None
  | p :: ps => Some (env_of_coords p ps)
  end.

Definition env_contains (e : envelope) (p : coord) : bool :=
  let '(x, y, X, Y) := e in
  Qle_bool x (fst p) && Qle_bool (fst p) X &&
  Qle_bool y (snd p) && Qle_bool (snd p) Y.

Definition env_overlap (e1 e2 : envelope) : bool :=
  let '(x1, y1, X1, Y1) := e1 in
  let '(x2, y2, X2, Y2) := e2 in
  Qle_bool x1 X2 && Qle_bool x2 X1 && Qle_bool y1 Y2 && Qle_bool y2 Y1.

(** [geom.intersects(poly)] for a rectangular [poly]: the two point sets
    share a point. *)
Definition intersects (g : t) (poly : Polygon) : bool :=
  match region poly with
  | None => false
  | Some r =>
      match g with
      | Point p => env_contains r p
      | MultiPoint p ps => existsb (env_contains r) (p :: ps)
      | Cell a b => env_overlap (bounds g) r
      end
  end.

(** One envelope inside another. *)
Definition env_within (inner outer : envelope) : Prop :=
  let '(x, y, X, Y) := inner in
  let '(x', y', X', Y') := outer in
  (x' <= x)%Q ∧ (y' <= y)%Q ∧ (X <= X')%Q ∧ (Y <= Y')%Q.

(** The envelope of the ring of [box]: the rectangle spanned by its
    corners. *)
Definition spanned (minx miny maxx maxy : Q) : envelope :=
  (qmin (qmin (qmin maxx maxx) minx) minx,
   qmin (qmin (qmin miny maxy) maxy) miny,
   qmax (qmax (qmax maxx maxx) minx) minx,
   qmax (qmax (qmax miny maxy) maxy) miny).

(** The four sides of an envelope. *)
Definition minx (e : envelope) : Q := e.1.1.1.
Definition miny (e : envelope) : Q := e.1.1.2.
Definition maxx (e : envelope) : Q := e.1.2.
Definition maxy (e : envelope) : Q := e.2.

(** A component of a union is that component of one of the two. *)
Definition component (sel : envelope → Q) : Prop :=
  ∀ e1 e2, sel (env_union e1 e2) = sel e1 ∨ sel (env_union e1 e2) = sel e2.

End Geometry.

(** ** Frames (pandas, geopandas) *)

(** Attribute values. *)
Inductive Value : Type :=
  | VStr (s : string)
  | VNum (q : Q)
  | VBool (b : bool)
  | VNull.

(** A row: its geometry and its attribute cells, by column name.  A column
    of the frame without a cell in the row reads as NaN. *)
Record Row : Type := mkRow {
  geometry : Geometry.t;
  cells : list (string * Value)
}.

Record GeoDataFrame : Type := mkGeoDataFrame {
  columns : list string;
  rows : list Row;
  crs : option string
}.

(** [len(gdf)] *)
Definition len (g : GeoDataFrame) : nat := length (rows g).

(** [gdf.empty]: some axis has length 0. *)
Definition empty (g : GeoDataFrame) : bool :=
  (length (rows g) =? 0) || (length (columns g) =? 0).

Definition with_rows (g : GeoDataFrame) (rs : list Row) : GeoDataFrame :=
  mkGeoDataFrame (columns g) rs (crs g).

(** [gdf[gdf.geometry.intersects(bbox)]]: the rows whose mask entry is
    true, in the order of the frame. *)
Definition mask_intersects (g : GeoDataFrame) (bbox : Geometry.Polygon)
  : GeoDataFrame :=
  with_rows g (List.filter (λ r, Geometry.intersects (geometry r) bbox) (rows g)).

(** The slice [xs[::k]] for [k >= 1], as a walk over [xs]: [skip] is the
    number of elements to pass over before the next one is kept. *)
Fixpoint slice_step_from {A : Type} (k skip : nat) (xs : list A) : list A :=
  match xs with
  | [] => []
  | x :: xs' =>
      match skip with
      | O => x :: slice_step_from k (k - 1) xs'
      | S skip' => slice_step_from k skip' xs'
      end
  end.

Definition slice_step {A : Type} (k : nat) (xs : list A) : list A :=
  slice_step_from k 0 xs.

(** [gdf.iloc[::k]] *)
Definition iloc_step (g : GeoDataFrame) (k : nat) : GeoDataFrame :=
  with_rows g (slice_step k (rows g)).

(** The CRS of a concatenated geometry column.  pandas joins the geometry
    columns of all the inputs, also of those without rows, with
    [GeometryArray._concat_same_type], and geopandas gives the result the
    CRS computed by [_get_common_crs]:
    [unique_crs = []; for arr in arr_seq: if arr.crs not in unique_crs:
    unique_crs.append(arr.crs)]. *)
Definition add_crs (acc : list (option string)) (g : GeoDataFrame)
  : list (option string) :=
  if decide (crs g ∈ acc) then acc else acc ++ [crs g].

Definition unique_crs (frames : list GeoDataFrame) : list (option string) :=
  fold_left add_crs frames [].

(** [crs_not_none = [crs for crs in unique_crs if crs is not None]]: with
    none the result has no CRS, with exactly one it has that one, and with
    several [_get_common_crs] raises
    [ValueError("Cannot determine common CRS for concatenation inputs")]. *)
Definition get_common_crs (frames : list GeoDataFrame) : result (option string) :=
  let crs_not_none := omap id (unique_crs frames) in
  match crs_not_none with
  | [] => Ok None
  | [c] => Ok (Some c)
  | _ => Raise (ValueError_CannotDetermineCommonCRS crs_not_none)
  end.

(** The columns of an outer join without sorting: those of the first
    frame, then the new ones of each next frame. *)
Definition union_columns (frames : list GeoDataFrame) : list string :=
  fold_left (λ acc g, acc ++ list_difference (columns g) acc) frames [].

(** [pd.concat(frames, ignore_index=True)] *)
Definition pd_concat (frames : list GeoDataFrame) : result GeoDataFrame :=
  match frames with
  | [] => Raise ValueError_NoObjectsToConcatenate
  | _ :: _ =>
      match get_common_crs frames with
      | Raise e => Raise e
      | Ok c => Ok (mkGeoDataFrame (union_columns frames)
                                   (concat (map rows frames)) c)
      end
  end.

(** [gpd.GeoDataFrame(data, crs=crs_arg)] for [data] a GeoDataFrame:
    [if crs is not None and data.crs != crs: raise ValueError(...)]. *)
Definition GeoDataFrame_init (data : GeoDataFrame) (crs_arg : option string)
  : result GeoDataFrame :=
  match crs_arg with
  | None => Ok data
  | Some c =>
      if decide (crs data = Some c) then Ok data
      else Raise ValueError_CRSMismatch
  end.

(** The extent of rows added to an envelope. *)
Definition fold_bounds (rs : list Row) (e0 : Geometry.envelope) : Geometry.envelope :=
  fold_left (λ e r', Geometry.env_union e (Geometry.bounds (geometry r'))) rs e0.

(** [gdf.total_bounds]: [(minx, miny, maxx, maxy)] over all geometries.
    [None] stands for the four NaN of a frame without rows. *)
Definition rows_bounds (rs : list Row) : option Geometry.envelope :=
  match rs with
  | [] => None
  | r :: rs' => Some (fold_bounds rs' (Geometry.bounds (geometry r)))
  end.

Definition total_bounds (g : GeoDataFrame) : option Geometry.envelope :=
  rows_bounds (rows g).

(** ** GeoJSON ([to_json]) *)

Record Feature : Type := mkFeature {
  feature_id : nat;
  properties : list (string * Value);
  feature_geometry : Geometry.t
}.

Fixpoint assoc (c : string) (kvs : list (string * Value)) : option Value :=
  match kvs with
  | [] => None
  | (k, v) :: kvs' => if decide (k = c) then Some v else assoc c kvs'
  end.

Definition geometry_column : string := "geometry".

(** One feature per row, numbered by the index of the row; its properties
    are the cells of the row for every column but the geometry column, NaN
    written as null. *)
Definition feature_of_row (cols : list string) (i : nat) (r : Row) : Feature :=
  mkFeature i
    (map (λ c, (c, default VNull (assoc c (cells r))))
         (List.filter (λ c, bool_decide (c ≠ geometry_column)) cols))
    (geometry r).

(** [json.loads(gdf.to_json())["features"]] *)
Definition to_json_features (g : GeoDataFrame) : list Feature :=
  imap (feature_of_row (columns g)) (rows g).

(** ** The registry [geojson_parts]: a Python dict, iterated in insertion
    order *)

Section dict.
Context {V : Type}.

Definition dict : Type := list (nat * V).

Fixpoint dict_lookup (d : dict) (k : nat) : option V :=
  match d with
  | [] => None
  | (k', v) :: d' => if decide (k' = k) then Some v else dict_lookup d' k
  end.

(** [d[k] = v]: an existing key keeps its position. *)
Fixpoint dict_set (d : dict) (k : nat) (v : V) : dict :=
  match d with
  | [] => [(k, v)]
  | (k', v') :: d' =>
      if decide (k' = k) then (k, v) :: d' else (k', v') :: dict_set d' k v
  end.

(** [d.values()] *)
Definition dict_values (d : dict) : list V := map snd d.
End dict.
Arguments dict V : clear implicits.

(** [d.get(k)] for a dict whose values may be [None]: [None] for a key
    that is missing and for a key bound to [None]. *)
Definition dict_get {A : Type} (d : dict (option A)) (k : nat) : option A :=
  match dict_lookup d k with
  | Some v => v
  | None => None
  end.

Definition INPUT_DIR : string := EmptyString.
Definition FILENAME_PATTERN_format (i : nat) : string :=
  "indore_roads_density_grid_part_" +:+ pretty i +:+ ".geojson".
Definition NUM_PARTS : nat := 3.

(** [range(1, NUM_PARTS + 1)] *)
Definition part_indices : list nat := seq 1 NUM_PARTS.

(** [os.path.join(a, b)] for a relative [b]. *)
Definition os_path_join (a b : string) : string :=
  if decide (a = EmptyString) then b else a +:+ "/" +:+ b.

Definition part_path (i : nat) : string :=
  os_path_join INPUT_DIR (FILENAME_PATTERN_format i).

(** ** [load_geojson_parts] *)

Inductive LogLine : Type :=
  | LogLoaded (i : nat) (n : nat) (path : string)
  | LogError (path : string) (e : PyException).

Record Store : Type := mkStore {
  geojson_parts : dict (option GeoDataFrame);
  stdout : list LogLine
}.

(** The body of the loop, for one [i]; [read_file] is [gpd.read_file] on
    the file system of the process. *)
Definition load_part (read_file : string → result GeoDataFrame)
    (st : Store) (i : nat) : Store :=
  let path := part_path i in
  match read_file path with
  | Ok gdf =>
      mkStore (dict_set (geojson_parts st) i (Some gdf))
              (stdout st ++ [LogLoaded i (len gdf) path])
  | Raise e =>
      mkStore (dict_set (geojson_parts st) i None)
              (stdout st ++ [LogError path e])
  end.

Definition load_geojson_parts (read_file : string → result GeoDataFrame)
    (st : Store) : Store :=
  fold_left (load_part read_file) part_indices st.

(** The module-level [geojson_parts = {}], before anything is printed. *)
Definition initial_store : Store := mkStore [] [].

(** [startup_event], run once when the application starts. *)
Definition startup_event (read_file : string → result GeoDataFrame)
    (st : Store) : Store :=
  load_geojson_parts read_file st.

(** ** [get_geojson_by_bounds] *)

Record Bounds : Type := mkBounds {
  north : Q;
  south : Q;
  east : Q;
  west : Q
}.

Record QueryResponse : Type := mkQueryResponse {
  features : list Feature;
  count : nat;
  bounds : Bounds
}.

Inductive http (A : Type) : Type :=
  | HTTP200 (body : A)
  | HTTPException (status_code : nat) (detail : PyException).
Arguments HTTP200 {A} body.
Arguments HTTPException {A} status_code detail.

(** The zoom-based sampling of one filtered partition (the [if zoom < 10]
    ... [elif zoom < 13] ... of the loop body). *)
Definition decimate (zoom : Z) (filtered_gdf : GeoDataFrame) : GeoDataFrame :=
  if (zoom <? 10)%Z then
    iloc_step filtered_gdf (Nat.max 1 (len filtered_gdf / 100))
  else if (zoom <? 13)%Z then
    iloc_step filtered_gdf (Nat.max 1 (len filtered_gdf / 500))
  else filtered_gdf.

(** The body of the loop over the partitions, for one [i]. *)
Definition filter_part (parts : dict (option GeoDataFrame))
    (bbox : Geometry.Polygon) (zoom : Z)
    (filtered_parts : list GeoDataFrame) (i : nat) : list GeoDataFrame :=
  match dict_get parts i with
  | None => filtered_parts
  | Some gdf =>
      if empty gdf then filtered_parts
      else
        let filtered_gdf := mask_intersects gdf bbox in
        let filtered_gdf := decimate zoom filtered_gdf in
        filtered_parts ++ [filtered_gdf]
  end.

Definition collect_filtered_parts (parts : dict (option GeoDataFrame))
    (bbox : Geometry.Polygon) (zoom : Z) : list GeoDataFrame :=
  fold_left (filter_part parts bbox zoom) part_indices [].

(** The [if filtered_parts: ... else: ...] after the loop: the count and
    the features of the response. *)
Definition combine (filtered_parts : list GeoDataFrame)
  : result (nat * list Feature) :=
  match filtered_parts with
  | first :: _ =>
      match pd_concat filtered_parts with
      | Raise e => Raise e
      | Ok df =>
          match GeoDataFrame_init df (crs first) with
          | Raise e => Raise e
          | Ok combined_gdf => Ok (len combined_gdf, to_json_features combined_gdf)
          end
      end
  | [] => Ok (0, [])
  end.

Definition get_geojson_by_bounds (parts : dict (option GeoDataFrame))
    (north south east west : Q) (zoom : Z) : http QueryResponse :=
  let bbox := Geometry.box west south east north in
  let filtered_parts := collect_filtered_parts parts bbox zoom in
  match combine filtered_parts with
  | Ok (total_features, geojson_features) =>
      HTTP200 (mkQueryResponse geojson_features total_features
                               (mkBounds north south east west))
  | Raise e => HTTPException 500 e
  end.

(** ** [get_info] *)

Record Info : Type := mkInfo {
  total_features : nat;
  info_bounds : option Bounds;
  info_columns : list string
}.

Inductive InfoResponse : Type :=
  | InfoOk (info : Info)
  | StatusNoDataLoaded
  | StatusError (e : PyException).

(** [[g for g in geojson_parts.values() if g is not None and not g.empty]] *)
Definition loaded_frames (parts : dict (option GeoDataFrame)) : list GeoDataFrame :=
  omap (λ v, match v with
             | Some g => if empty g then None else Some g
             | None => None
             end) (dict_values parts).

Definition get_info (parts : dict (option GeoDataFrame)) : InfoResponse :=
  let gdfs := loaded_frames parts in
  match gdfs with
  | [] => StatusNoDataLoaded
  | first :: _ =>
      match pd_concat gdfs with
      | Raise e => StatusError e
      | Ok df =>
          match GeoDataFrame_init df (crs first) with
          | Raise e => StatusError e
          | Ok combined =>
              InfoOk (mkInfo (len combined)
                        (match total_bounds combined with
                         | Some (minx, miny, maxx, maxy) =>
                             Some (mkBounds maxy miny maxx minx)
                         | None => None
                         end)
                        (columns combined))
          end
      end
  end.

(** * Vocabulary of the statements *)

(** [ceil(n / k)] *)
Definition ceil_div (n k : nat) : nat := (n + (k - 1)) / k.

(** No two frames declare different reference systems. *)
Definition crs_compatible (frames : list GeoDataFrame) : Prop :=
  ∀ g g' c c', g ∈ frames → g' ∈ frames →
    crs g = Some c → crs g' = Some c' → c = c'.

(** The rows of the frames, one frame after the other. *)
Definition all_rows (frames : list GeoDataFrame) : list Row :=
  concat (map rows frames).

(** What partition [i] adds to [filtered_parts]. *)
Definition part_result (parts : dict (option GeoDataFrame))
    (bbox : Geometry.Polygon) (zoom : Z) (i : nat) : list GeoDataFrame :=
  match dict_get parts i with
  | None => []
  | Some gdf =>
      if empty gdf then [] else [decimate zoom (mask_intersects gdf bbox)]
  end.

(** The partitions that are loaded and not empty, by ascending index. *)
Definition present_parts (parts : dict (option GeoDataFrame)) : list GeoDataFrame :=
  omap (λ i, match dict_get parts i with
             | Some gdf => if empty gdf then None else Some gdf
             | None => None
             end) part_indices.

(** What one partition contributes: its filtered and sampled frame. *)
Definition filtered (bbox : Geometry.Polygon) (zoom : Z) (gdf : GeoDataFrame)
  : GeoDataFrame :=
  decimate zoom (mask_intersects gdf bbox).

(** The features and the count of a response, without the echoed bounds. *)
Definition payload (r : http QueryResponse) : http (list Feature * nat) :=
  match r with
  | HTTP200 body => HTTP200 (features body, count body)
  | HTTPException status_code detail => HTTPException status_code detail
  end.

(** The value the loader binds to index [i]. *)
Definition loaded_value (read_file : string → result GeoDataFrame) (i : nat)
  : option GeoDataFrame :=
  match read_file (part_path i) with
  | Ok gdf => Some gdf
  | Raise _ => None
  end.

(** The registry that binds only the indices other than [i], to what
    [read_file] gives for them. *)
Definition registry_without (read_file : string → result GeoDataFrame) (i : nat)
  : dict (option GeoDataFrame) :=
  map (λ j, (j, loaded_value read_file j))
      (List.filter (λ j, bool_decide (j ≠ i)) part_indices).

(** The bounds of a summary, as an envelope. *)
Definition envelope_of (b : Bounds) : Geometry.envelope :=
  (west b, south b, east b, north b).

(** The line the loader prints for index [i]. *)
Definition log_line (read_file : string → result GeoDataFrame) (i : nat)
  : LogLine :=
  match read_file (part_path i) with
  | Ok gdf => LogLoaded i (len gdf) (part_path i)
  | Raise e => LogError (part_path i) e
  end.

(** Two zoom levels that take the same branch of the sampling. *)
Definition same_zoom_bracket (zoom zoom' : Z) : Prop :=
  ((zoom < 10)%Z ∧ (zoom' < 10)%Z) ∨
  ((10 ≤ zoom < 13)%Z ∧ (10 ≤ zoom' < 13)%Z) ∨
  ((13 ≤ zoom)%Z ∧ (13 ≤ zoom')%Z).

(** The box [west..east] by [south..north] is in order and lies inside
    the box [west'..east'] by [south'..north']. *)
Definition box_inside (b b' : Bounds) : Prop :=
  (west b' <= west b)%Q ∧ (west b <= east b)%Q ∧ (east b <= east b')%Q ∧
  (south b' <= south b)%Q ∧ (south b <= north b)%Q ∧ (north b <= north b')%Q.

(** A feature without its number. *)
Definition feature_content (f : Feature)
  : list (string * Value) * Geometry.t :=
  (properties f, feature_geometry f).

(** What one binding of the registry gives the query: the frame of an
    index bound to a frame with rows and columns, nothing for an index that
    is missing, bound to [None] or bound to an empty frame. *)
Definition contribution (binding : option (option GeoDataFrame))
  : list GeoDataFrame :=
  match binding with
  | Some (Some gdf) => if empty gdf then [] else [gdf]
  | _ => []
  end.

(** ** Sample frames, registries and file systems *)

(** Rows numbered [0 .. n-1], used to run the definitions on frames of a
    given length. *)
Definition sample_frame (n : nat) : GeoDataFrame :=
  mkGeoDataFrame [geometry_column]
    (map (λ i, mkRow (Geometry.Point (inject_Z (Z.of_nat i), 0%Q)) []) (seq 0 n))
    (Some "EPSG:4326").

Definition point_frame (crs : option string) (pts : list Geometry.coord)
  : GeoDataFrame :=
  mkGeoDataFrame [geometry_column; "density"]
    (map (λ p, mkRow (Geometry.Point p) [("density", VNum 1)]) pts) crs.

(** Partitions 1 and 3 loaded with the same reference system, partition 2
    absent. *)
Definition parts_1_3 : dict (option GeoDataFrame) :=
  [(1, Some (point_frame (Some "EPSG:4326") [(0, 15); (5, 5)]%Q));
   (2, None);
   (3, Some (point_frame (Some "EPSG:4326") [(1, 1)]%Q))].

(** Partitions 1 and 2 loaded with different reference systems. *)
Definition parts_mixed_crs : dict (option GeoDataFrame) :=
  [(1, Some (point_frame (Some "EPSG:4326") [(0, 0)]%Q));
   (2, Some (point_frame (Some "EPSG:3857") [(1, 1)]%Q));
   (3, None)].

(** Partition 1 loaded without any feature, the others absent. *)
Definition parts_loaded_empty : dict (option GeoDataFrame) :=
  [(1, Some (point_frame (Some "EPSG:4326") []));
   (2, None);
   (3, None)].

(** Index 3 bound before index 1, index 2 bound to [None], and a key
    outside the range of the loader bound to a frame of another reference
    system. *)
Definition parts_3_7_1 : dict (option GeoDataFrame) :=
  [(3, Some (point_frame (Some "EPSG:4326") [(1, 1)]%Q));
   (7, Some (point_frame (Some "EPSG:3857") [(9, 9)]%Q));
   (1, Some (point_frame (Some "EPSG:4326") [(0, 15); (5, 5)]%Q));
   (2, None)].

(** A file system where the file of partition 2 is missing. *)
Definition read_file_without_2 (path : string) : result GeoDataFrame :=
  if decide (path = part_path 1) then
    Ok (point_frame (Some "EPSG:4326") [(0, 15); (5, 5)]%Q)
  else if decide (path = part_path 3) then
    Ok (point_frame (Some "EPSG:4326") [(1, 1)]%Q)
  else Raise (IOError path).

(** * Properties *)

(** ** The slice [xs[::k]] *)

Section slice.
Context {A : Type}.
Implicit Types xs : list A.

Lemma slice_step_from_lookup k skip xs j :
  1 ≤ k → slice_step_from k skip xs !! j = xs !! (skip + j * k).
Proof.
  intros Hk. revert skip j.
  induction xs as [|x xs IH]; intros skip j; simpl.
  - by rewrite !lookup_nil.
  - destruct skip as [|skip].
    + destruct j as [|j]; simpl; [done|].
      rewrite IH. replace (k + j * k) with (S (k - 1 + j * k)) by lia.
      done.
    + by rewrite IH.
Qed.

Lemma slice_step_lookup k xs j :
  1 ≤ k → slice_step k xs !! j = xs !! (j * k).
Proof. intros Hk. unfold slice_step. by rewrite slice_step_from_lookup. Qed.

Lemma slice_step_1 xs : slice_step 1 xs = xs.
Proof.
  apply list_eq; intros j.
  rewrite slice_step_lookup by lia. f_equal; lia.
Qed.

Lemma slice_step_from_length k skip xs :
  1 ≤ k →
  length (slice_step_from k skip xs) = ceil_div (length xs - skip) k.
Proof.
  intros Hk. unfold ceil_div. revert skip.
  induction xs as [|x xs IH]; intros skip; simpl.
  - symmetry. apply Nat.div_small. lia.
  - destruct skip as [|skip]; [|by rewrite IH].
    simpl. rewrite IH.
    destruct (decide (k - 1 ≤ length xs)) as [Hle|Hgt].
    + replace (length xs - (k - 1) + (k - 1)) with (length xs) by lia.
      replace (S (length xs + (k - 1))) with (length xs + 1 * k) by lia.
      rewrite Nat.div_add by lia. lia.
    + replace (length xs - (k - 1) + (k - 1)) with (k - 1) by lia.
      rewrite (Nat.div_small (k - 1) k) by lia.
      replace (S (length xs + (k - 1))) with (length xs + 1 * k) by lia.
      rewrite Nat.div_add by lia.
      rewrite (Nat.div_small (length xs) k) by lia. done.
Qed.

Lemma slice_step_length k xs :
  1 ≤ k → length (slice_step k xs) = ceil_div (length xs) k.
Proof.
  intros Hk. unfold slice_step. rewrite slice_step_from_length by done.
  by rewrite Nat.sub_0_r.
Qed.

Lemma slice_step_from_sublist k skip xs :
  slice_step_from k skip xs `sublist_of` xs.
Proof.
  revert skip. induction xs as [|x xs IH]; intros skip; simpl; [done|].
  destruct skip; [apply sublist_skip|apply sublist_cons]; apply IH.
Qed.

Lemma filter_sublist (f : A → bool) xs : List.filter f xs `sublist_of` xs.
Proof.
  induction xs as [|x xs IH]; simpl; [done|].
  destruct (f x); [by apply sublist_skip|by apply sublist_cons].
Qed.
End slice.

Example slice_step_2 : slice_step 2 [0; 1; 2; 3; 4] = [0; 2; 4].
Proof. reflexivity. Qed.

Example slice_step_3 : slice_step 3 [0; 1; 2; 3; 4; 5; 6] = [0; 3; 6].
Proof. reflexivity. Qed.

Example part_path_1 : part_path 1 = "indore_roads_density_grid_part_1.geojson".
Proof. reflexivity. Qed.

(** ** Decimation *)

Lemma decimate_low zoom g :
  (zoom < 10)%Z → decimate zoom g = iloc_step g (Nat.max 1 (len g / 100)).
Proof.
  intros Hz. unfold decimate.
  by destruct (Z.ltb_spec zoom 10); [|lia].
Qed.

Lemma decimate_mid zoom g :
  (10 ≤ zoom < 13)%Z → decimate zoom g = iloc_step g (Nat.max 1 (len g / 500)).
Proof.
  intros Hz. unfold decimate.
  destruct (Z.ltb_spec zoom 10); [lia|].
  by destruct (Z.ltb_spec zoom 13); [|lia].
Qed.

Lemma decimate_high zoom g : (13 ≤ zoom)%Z → decimate zoom g = g.
Proof.
  intros Hz. unfold decimate.
  destruct (Z.ltb_spec zoom 10); [lia|].
  by destruct (Z.ltb_spec zoom 13); [lia|].
Qed.

Lemma decimate_columns zoom g : columns (decimate zoom g) = columns g.
Proof. unfold decimate. by repeat case_match. Qed.

Lemma decimate_crs zoom g : crs (decimate zoom g) = crs g.
Proof. unfold decimate. by repeat case_match. Qed.

Lemma decimate_sublist zoom g : rows (decimate zoom g) `sublist_of` rows g.
Proof.
  unfold decimate, iloc_step, slice_step.
  repeat case_match; simpl; [apply slice_step_from_sublist..|done].
Qed.

(** C3. The zoom-based sampling keeps exactly the rows at positions
    0, k, 2k, ... of the filtered partition, in their order: below zoom 10
    with k = max(1, floor(count/100)), from zoom 10 and below zoom 13 with
    k = max(1, floor(count/500)); from zoom 13 on the partition is returned
    unchanged.  (Row [j] of the output is row [j * k] of the input, for
    every [j], and there is no row [j] where the input has no row
    [j * k].) *)
Theorem decimate_stride (zoom : Z) (g : GeoDataFrame) :
  ((zoom < 10)%Z →
     ∀ j, rows (decimate zoom g) !! j = rows g !! (j * Nat.max 1 (len g / 100))) ∧
  ((10 ≤ zoom < 13)%Z →
     ∀ j, rows (decimate zoom g) !! j = rows g !! (j * Nat.max 1 (len g / 500))) ∧
  ((13 ≤ zoom)%Z → decimate zoom g = g).
Proof.
  split_and!.
  - intros Hz j. rewrite decimate_low by done. simpl.
    apply slice_step_lookup. lia.
  - intros Hz j. rewrite decimate_mid by done. simpl.
    apply slice_step_lookup. lia.
  - apply decimate_high.
Qed.

Lemma decimate_stride_witness :
  rows (decimate 5 (sample_frame 250)) !! 3 = rows (sample_frame 250) !! 6 ∧
  rows (decimate 11 (sample_frame 1700)) !! 4 = rows (sample_frame 1700) !! 12 ∧
  decimate 15 (sample_frame 250) = sample_frame 250.
Proof.
  split_and!.
  - apply (proj1 (decimate_stride 5 (sample_frame 250))). lia.
  - apply (proj1 (proj2 (decimate_stride 11 (sample_frame 1700)))). lia.
  - apply (proj2 (proj2 (decimate_stride 15 (sample_frame 250)))). lia.
Defined.

(** C5. The length of the sampled partition: below zoom 10 at most
    ceil(n / max(1, floor(n/100))), from zoom 10 and below zoom 13 at most
    ceil(n / max(1, floor(n/500))), and from zoom 13 on exactly n, for a
    filtered partition of n rows. *)
Theorem decimate_length_bound (zoom : Z) (g : GeoDataFrame) :
  ((zoom < 10)%Z →
     len (decimate zoom g) ≤ ceil_div (len g) (Nat.max 1 (len g / 100))) ∧
  ((10 ≤ zoom < 13)%Z →
     len (decimate zoom g) ≤ ceil_div (len g) (Nat.max 1 (len g / 500))) ∧
  ((13 ≤ zoom)%Z → len (decimate zoom g) = len g).
Proof.
  split_and!.
  - intros Hz. rewrite decimate_low by done. unfold len at 1. simpl.
    rewrite slice_step_length by lia. done.
  - intros Hz. rewrite decimate_mid by done. unfold len at 1. simpl.
    rewrite slice_step_length by lia. done.
  - intros Hz. by rewrite decimate_high.
Qed.

Lemma decimate_length_bound_witness :
  len (decimate 5 (sample_frame 250)) ≤ 125 ∧
  len (decimate 11 (sample_frame 1700)) ≤ 567 ∧
  len (decimate 15 (sample_frame 250)) = 250.
Proof.
  split_and!.
  - apply (proj1 (decimate_length_bound 5 (sample_frame 250))). lia.
  - apply (proj1 (proj2 (decimate_length_bound 11 (sample_frame 1700)))). lia.
  - apply (proj2 (proj2 (decimate_length_bound 15 (sample_frame 250)))). lia.
Defined.

(** C10. Where the stride is 1 the sampling is the identity: below zoom 10
    for fewer than 200 rows, and from zoom 10 and below zoom 13 for fewer
    than 1000 rows, the output is the input. *)
Theorem decimate_identity_small (zoom : Z) (g : GeoDataFrame) :
  ((zoom < 10)%Z → len g < 200 → decimate zoom g = g) ∧
  ((10 ≤ zoom < 13)%Z → len g < 1000 → decimate zoom g = g).
Proof.
  assert (Hid : iloc_step g 1 = g).
  { unfold iloc_step, with_rows. rewrite slice_step_1. by destruct g. }
  split.
  - intros Hz Hn. rewrite decimate_low by done.
    assert (len g / 100 < 2) by (apply Nat.Div0.div_lt_upper_bound; lia).
    by replace (Nat.max 1 (len g / 100)) with 1 by lia.
  - intros Hz Hn. rewrite decimate_mid by done.
    assert (len g / 500 < 2) by (apply Nat.Div0.div_lt_upper_bound; lia).
    by replace (Nat.max 1 (len g / 500)) with 1 by lia.
Qed.

Lemma decimate_identity_small_witness :
  decimate 9 (sample_frame 199) = sample_frame 199 ∧
  decimate 12 (sample_frame 999) = sample_frame 999.
Proof.
  split.
  - apply (proj1 (decimate_identity_small 9 (sample_frame 199))); [lia|].
    vm_compute. lia.
  - apply (proj2 (decimate_identity_small 12 (sample_frame 999))); [lia|].
    vm_compute. lia.
Defined.

(** ** The common CRS of a concatenation *)

Lemma fold_add_crs_elem frames acc c :
  c ∈ fold_left add_crs frames acc ↔ c ∈ acc ∨ ∃ g, g ∈ frames ∧ crs g = c.
Proof.
  revert acc. induction frames as [|g frames IH]; intros acc; simpl.
  - split; [by left|]. intros [?|(g & Hg & _)]; [done|]. by apply elem_of_nil in Hg.
  - rewrite IH. unfold add_crs. split.
    + intros [Hc|(g' & Hg' & Hc)].
      * case_decide; [by left|].
        apply elem_of_app in Hc as [?|Hc]; [by left|].
        apply list_elem_of_singleton in Hc. right. exists g. split; [left|done].
      * right. exists g'. split; [by right|done].
    + intros [Hc|(g' & Hg' & Hc)].
      * left. case_decide; [done|]. apply elem_of_app. by left.
      * apply elem_of_cons in Hg' as [->|Hg'].
        -- left. case_decide; [by subst|]. apply elem_of_app. right.
           subst. apply list_elem_of_singleton. done.
        -- right. by exists g'.
Qed.

Lemma fold_add_crs_NoDup frames acc :
  NoDup acc → NoDup (fold_left add_crs frames acc).
Proof.
  revert acc. induction frames as [|g frames IH]; intros acc Hacc; simpl; [done|].
  apply IH. unfold add_crs. case_decide; [done|].
  apply NoDup_app. split_and!; [done| |apply NoDup_singleton].
  intros x Hx Hx'. apply list_elem_of_singleton in Hx'. by subst.
Qed.

Lemma unique_crs_elem frames c :
  c ∈ unique_crs frames ↔ ∃ g, g ∈ frames ∧ crs g = c.
Proof.
  unfold unique_crs. rewrite (fold_add_crs_elem frames [] c).
  split; [|by right]. intros [H|H]; [|done]. by apply elem_of_nil in H.
Qed.

Lemma unique_crs_NoDup frames : NoDup (unique_crs frames).
Proof. apply fold_add_crs_NoDup, NoDup_nil_2. Qed.

Lemma NoDup_omap_id {A : Type} (l : list (option A)) :
  NoDup l → NoDup (omap id l).
Proof.
  induction 1 as [|x l Hx Hl IH]; simpl; [apply NoDup_nil_2|].
  destruct x as [a|]; simpl; [|done].
  apply NoDup_cons. split; [|done].
  intros Ha. apply list_elem_of_omap in Ha as (y & Hy & Hya).
  simpl in Hya. by subst.
Qed.

Lemma declared_crs_elem frames c :
  c ∈ omap id (unique_crs frames) ↔ ∃ g, g ∈ frames ∧ crs g = Some c.
Proof.
  rewrite list_elem_of_omap. split.
  - intros (y & Hy & Hc). simpl in Hc. subst.
    by apply unique_crs_elem in Hy.
  - intros Hg. exists (Some c). split; [|done]. by apply unique_crs_elem.
Qed.

(** The concatenation finds a common CRS exactly when no two inputs
    declare different ones. *)
Lemma get_common_crs_compatible frames :
  crs_compatible frames → ∃ c, get_common_crs frames = Ok c.
Proof.
  intros Hcompat. unfold get_common_crs.
  pose proof (NoDup_omap_id _ (unique_crs_NoDup frames)) as Hnd.
  pose proof (declared_crs_elem frames) as Hel.
  destruct (omap id (unique_crs frames)) as [|c1 [|c2 l]]; [by eexists..|].
  exfalso.
  assert (H1 : c1 ∈ c1 :: c2 :: l) by left.
  assert (H2 : c2 ∈ c1 :: c2 :: l) by (right; left).
  apply Hel in H1 as (g1 & Hg1 & Hc1). apply Hel in H2 as (g2 & Hg2 & Hc2).
  assert (c1 = c2) by exact (Hcompat g1 g2 c1 c2 Hg1 Hg2 Hc1 Hc2). subst.
  apply NoDup_cons in Hnd as [Hnd _]. apply Hnd. left.
Qed.

Lemma get_common_crs_mismatch frames g g' c c' :
  g ∈ frames → g' ∈ frames → crs g = Some c → crs g' = Some c' → c ≠ c' →
  ∃ names, get_common_crs frames = Raise (ValueError_CannotDetermineCommonCRS names)
           ∧ c ∈ names ∧ c' ∈ names.
Proof.
  intros Hg Hg' Hc Hc' Hne. unfold get_common_crs.
  assert (Hin : c ∈ omap id (unique_crs frames)) by (apply declared_crs_elem; eauto).
  assert (Hin' : c' ∈ omap id (unique_crs frames)) by (apply declared_crs_elem; eauto).
  destruct (omap id (unique_crs frames)) as [|c1 [|c2 l]].
  - by apply elem_of_nil in Hin.
  - apply list_elem_of_singleton in Hin, Hin'. congruence.
  - by eexists.
Qed.

Lemma get_common_crs_first first rest c x :
  get_common_crs (first :: rest) = Ok c → crs first = Some x → c = Some x.
Proof.
  intros Hok Hx. unfold get_common_crs in Hok.
  assert (Hin : x ∈ omap id (unique_crs (first :: rest))).
  { apply declared_crs_elem. exists first. split; [left|done]. }
  destruct (omap id (unique_crs (first :: rest))) as [|c1 [|c2 l]].
  - by apply elem_of_nil in Hin.
  - apply list_elem_of_singleton in Hin. by simplify_eq.
  - done.
Qed.

(** ** [combine] *)

(** The constructor call after a successful concatenation never raises:
    the CRS it is given is the one the concatenation found. *)
Lemma combine_eq frames :
  combine frames =
    match frames with
    | [] => Ok (0, [])
    | _ :: _ =>
        match get_common_crs frames with
        | Ok _ => Ok (length (all_rows frames),
                      imap (feature_of_row (union_columns frames)) (all_rows frames))
        | Raise e => Raise e
        end
    end.
Proof.
  destruct frames as [|first rest]; [done|].
  unfold combine, pd_concat.
  destruct (get_common_crs (first :: rest)) as [c|e] eqn:Hc; [|done].
  unfold GeoDataFrame_init.
  destruct (crs first) as [x|] eqn:Hx; [|done].
  rewrite (get_common_crs_first _ _ _ _ Hc Hx). simpl.
  by rewrite decide_True.
Qed.

(** ** The loop over the partitions *)

Lemma fold_filter_part parts bbox zoom l acc :
  fold_left (filter_part parts bbox zoom) l acc
  = acc ++ flat_map (part_result parts bbox zoom) l.
Proof.
  revert acc. induction l as [|i l IH]; intros acc; simpl.
  - by rewrite app_nil_r.
  - rewrite IH. unfold filter_part, part_result.
    destruct (dict_get parts i) as [gdf|]; [|done].
    destruct (empty gdf); [done|]. by rewrite <- app_assoc.
Qed.

Lemma collect_filtered_parts_eq parts bbox zoom :
  collect_filtered_parts parts bbox zoom
  = flat_map (part_result parts bbox zoom) part_indices.
Proof. unfold collect_filtered_parts. by rewrite fold_filter_part. Qed.

Lemma collect_filtered_parts_present parts bbox zoom :
  collect_filtered_parts parts bbox zoom
  = map (λ gdf, decimate zoom (mask_intersects gdf bbox)) (present_parts parts).
Proof.
  rewrite collect_filtered_parts_eq. unfold present_parts.
  induction part_indices as [|i l IH]; simpl; [done|].
  unfold part_result at 1.
  destruct (dict_get parts i) as [gdf|]; [|done].
  destruct (empty gdf); [done|]. simpl. by rewrite IH.
Qed.

(** ** Rectangles *)

Module GeometryFacts.
Import Geometry.

Lemma Qle_bool_false a b : Qle_bool a b = false ↔ (b < a)%Q.
Proof.
  split.
  - intros H. apply Qnot_le_lt. intros Hle.
    apply Qle_bool_iff in Hle. congruence.
  - intros H. destruct (Qle_bool a b) eqn:Hab; [|done].
    apply Qle_bool_iff in Hab. by apply Qlt_not_le in H.
Qed.

Ltac qcase a b :=
  let H := fresh "Hq" in
  destruct (Qle_bool a b) eqn:H;
  [apply Qle_bool_iff in H | apply Qle_bool_false in H].

Lemma qmin_le_iff a b t : (qmin a b <= t)%Q ↔ (a <= t)%Q ∨ (b <= t)%Q.
Proof.
  unfold qmin. qcase a b; split; try (intros [?|?]); try lra; auto.
Qed.

Lemma le_qmin_iff a b t : (t <= qmin a b)%Q ↔ (t <= a)%Q ∧ (t <= b)%Q.
Proof.
  unfold qmin. qcase a b; split; try (intros [? ?]); try split; lra.
Qed.

Lemma qmax_le_iff a b t : (qmax a b <= t)%Q ↔ (a <= t)%Q ∧ (b <= t)%Q.
Proof.
  unfold qmax. qcase a b; split; try (intros [? ?]); try split; lra.
Qed.

Lemma le_qmax_iff a b t : (t <= qmax a b)%Q ↔ (t <= a)%Q ∨ (t <= b)%Q.
Proof.
  unfold qmax. qcase a b; split; try (intros [?|?]); try lra; auto.
Qed.

(** Closes a disjunction of comparisons by one of its members. *)
Ltac pick_le :=
  lazymatch goal with
  | |- _ ∨ _ => first [left; pick_le | right; pick_le]
  | |- _ => lra
  end.

Lemma qmin_cases a b : qmin a b = a ∨ qmin a b = b.
Proof. unfold qmin. destruct (Qle_bool a b); auto. Qed.

Lemma qmax_cases a b : qmax a b = a ∨ qmax a b = b.
Proof. unfold qmax. destruct (Qle_bool a b); auto. Qed.

Lemma region_box minx miny maxx maxy :
  region (box minx miny maxx maxy) = Some (spanned minx miny maxx maxy).
Proof. reflexivity. Qed.

Lemma env_contains_iff x y X Y p :
  env_contains (x, y, X, Y) p = true ↔
  (x <= fst p)%Q ∧ (fst p <= X)%Q ∧ (y <= snd p)%Q ∧ (snd p <= Y)%Q.
Proof.
  unfold env_contains. rewrite !andb_true_iff, !Qle_bool_iff. tauto.
Qed.

Lemma env_overlap_iff x1 y1 X1 Y1 x2 y2 X2 Y2 :
  env_overlap (x1, y1, X1, Y1) (x2, y2, X2, Y2) = true ↔
  (x1 <= X2)%Q ∧ (x2 <= X1)%Q ∧ (y1 <= Y2)%Q ∧ (y2 <= Y1)%Q.
Proof.
  unfold env_overlap. rewrite !andb_true_iff, !Qle_bool_iff. tauto.
Qed.

(** Exchanging the two latitudes of [box] gives a ring with the same
    envelope. *)
Lemma spanned_contains_swap w s e n p :
  env_contains (spanned w s e n) p = env_contains (spanned w n e s) p.
Proof.
  apply eq_true_iff_eq. unfold spanned. rewrite !env_contains_iff.
  rewrite !qmin_le_iff, !le_qmax_iff. tauto.
Qed.

Lemma spanned_overlap_swap w s e n env :
  env_overlap env (spanned w s e n) = env_overlap env (spanned w n e s).
Proof.
  destruct env as [[[x y] X] Y].
  apply eq_true_iff_eq. unfold spanned. rewrite !env_overlap_iff.
  rewrite !qmin_le_iff, !le_qmax_iff. tauto.
Qed.

Lemma intersects_box_swap g w s e n :
  intersects g (box w s e n) = intersects g (box w n e s).
Proof.
  unfold intersects. rewrite !region_box. destruct g as [p|p ps|a b].
  - apply spanned_contains_swap.
  - induction (p :: ps) as [|q qs IH]; cbn [existsb]; [done|].
    by rewrite spanned_contains_swap, IH.
  - apply spanned_overlap_swap.
Qed.

(** The envelope of coordinates contains each of them and is ordered. *)
Lemma fold_env_union_first (env : envelope) ps :
  env_within env (fold_left (λ e q, env_union e (env_of_coord q)) ps env).
Proof.
  revert env. induction ps as [|q ps IH]; intros [[[x y] X] Y]; simpl.
  - repeat split; apply Qle_refl.
  - specialize (IH (env_union (x, y, X, Y) (env_of_coord q))).
    simpl in IH.
    destruct (fold_left _ ps _) as [[[x' y'] X'] Y'].
    destruct IH as (H1 & H2 & H3 & H4).
    apply le_qmin_iff in H1, H2. apply qmax_le_iff in H3, H4.
    repeat split; tauto.
Qed.

Lemma env_of_coords_first p ps :
  env_within (env_of_coord p) (env_of_coords p ps).
Proof. apply fold_env_union_first. Qed.

Lemma bounds_ordered g :
  let '(x, y, X, Y) := bounds g in (x <= X)%Q ∧ (y <= Y)%Q.
Proof.
  assert (H : ∀ p ps, let '(x, y, X, Y) := env_of_coords p ps in
                      (x <= X)%Q ∧ (y <= Y)%Q).
  { intros p ps. pose proof (env_of_coords_first p ps) as Hw.
    unfold env_of_coord, env_within in Hw.
    destruct (env_of_coords p ps) as [[[x y] X] Y].
    destruct Hw as (? & ? & ? & ?). split; lra. }
  destruct g as [p|p ps|a b]; simpl.
  - split; apply Qle_refl.
  - apply H.
  - apply (H a [b]).
Qed.

(** A geometry whose extent lies in the rectangle [west..east] by
    [south..north] intersects [box(west, south, east, north)]. *)
Lemma intersects_covering_box g w s e n :
  env_within (bounds g) (w, s, e, n) →
  intersects g (box w s e n) = true.
Proof.
  intros Hin. unfold intersects. rewrite region_box. unfold spanned.
  destruct g as [p|p ps|a b].
  - simpl in Hin. destruct Hin as (? & ? & ? & ?).
    apply env_contains_iff. rewrite !qmin_le_iff, !le_qmax_iff. tauto.
  - simpl in Hin. pose proof (env_of_coords_first p ps) as Hp.
    unfold env_of_coord, env_within in Hp.
    destruct (env_of_coords p ps) as [[[x y] X] Y].
    destruct Hin as (? & ? & ? & ?). destruct Hp as (? & ? & ? & ?).
    simpl. apply orb_true_iff. left.
    apply env_contains_iff. rewrite !qmin_le_iff, !le_qmax_iff.
    repeat split; pick_le.
  - pose proof (bounds_ordered (Cell a b)) as Ho.
    destruct (bounds (Cell a b)) as [[[x y] X] Y].
    simpl in Hin. destruct Hin as (? & ? & ? & ?). destruct Ho as [? ?].
    apply env_overlap_iff. rewrite !qmin_le_iff, !le_qmax_iff.
    repeat split; pick_le.
Qed.

End GeometryFacts.

(** ** The query *)

Lemma filtered_crs bbox zoom gdf : crs (filtered bbox zoom gdf) = crs gdf.
Proof. unfold filtered. by rewrite decimate_crs. Qed.

Lemma filtered_columns bbox zoom gdf :
  columns (filtered bbox zoom gdf) = columns gdf.
Proof. unfold filtered. by rewrite decimate_columns. Qed.

Lemma filtered_sublist bbox zoom gdf :
  rows (filtered bbox zoom gdf) `sublist_of` rows gdf.
Proof.
  unfold filtered. etrans; [apply decimate_sublist|]. apply filter_sublist.
Qed.

Lemma crs_compatible_fmap (f : GeoDataFrame → GeoDataFrame) frames :
  (∀ g, crs (f g) = crs g) →
  crs_compatible frames → crs_compatible (map f frames).
Proof.
  intros Hf Hcompat g g' c c' Hg Hg' Hc Hc'.
  apply list_elem_of_fmap in Hg as (g0 & -> & Hg0).
  apply list_elem_of_fmap in Hg' as (g0' & -> & Hg0').
  rewrite Hf in Hc, Hc'. by eapply (Hcompat g0 g0').
Qed.

Lemma union_columns_fmap (f : GeoDataFrame → GeoDataFrame) frames :
  (∀ g, columns (f g) = columns g) →
  union_columns (map f frames) = union_columns frames.
Proof.
  intros Hf. unfold union_columns. generalize (@nil string).
  induction frames as [|g frames IH]; intros acc; simpl; [done|].
  by rewrite Hf, IH.
Qed.

Lemma get_geojson_by_bounds_eq parts north south east west zoom :
  get_geojson_by_bounds parts north south east west zoom =
    match combine (map (filtered (Geometry.box west south east north) zoom)
                       (present_parts parts)) with
    | Ok (total_features, geojson_features) =>
        HTTP200 (mkQueryResponse geojson_features total_features
                                 (mkBounds north south east west))
    | Raise e => HTTPException 500 e
    end.
Proof.
  unfold get_geojson_by_bounds. by rewrite collect_filtered_parts_present.
Qed.

Lemma mask_all_false gdf bbox :
  (∀ r, r ∈ rows gdf → Geometry.intersects (geometry r) bbox = false) →
  rows (mask_intersects gdf bbox) = [].
Proof.
  intros H. simpl. induction (rows gdf) as [|r rs IH]; simpl; [done|].
  rewrite H by left. apply IH. intros r' Hr'. apply H. by right.
Qed.

Lemma mask_all_true gdf bbox :
  (∀ r, r ∈ rows gdf → Geometry.intersects (geometry r) bbox = true) →
  mask_intersects gdf bbox = gdf.
Proof.
  intros H. unfold mask_intersects, with_rows.
  assert (Heq : List.filter (λ r, Geometry.intersects (geometry r) bbox) (rows gdf)
                = rows gdf).
  { induction (rows gdf) as [|r rs IH]; simpl; [done|].
    rewrite H by left. f_equal. apply IH. intros r' Hr'. apply H. by right. }
  rewrite Heq. by destruct gdf.
Qed.

Lemma decimate_no_rows zoom gdf : rows gdf = [] → rows (decimate zoom gdf) = [].
Proof.
  intros H. unfold decimate, iloc_step, slice_step.
  repeat case_match; simpl; by rewrite ?H.
Qed.

Lemma all_rows_nil frames : (∀ g, g ∈ frames → rows g = []) → all_rows frames = [].
Proof.
  unfold all_rows. induction frames as [|g frames IH]; intros H; simpl; [done|].
  rewrite (H g) by left. apply IH. intros g' Hg'. apply H. by right.
Qed.

(** C9. In every successful response the count is the number of features
    returned, also when there are none. *)
Theorem count_is_number_of_features parts north south east west zoom r :
  get_geojson_by_bounds parts north south east west zoom = HTTP200 r →
  count r = length (features r).
Proof.
  rewrite get_geojson_by_bounds_eq, combine_eq.
  destruct (map _ (present_parts parts)) as [|first rest] eqn:Hparts.
  - intros [= <-]. done.
  - destruct (get_common_crs (first :: rest)); [|done].
    intros [= <-]. simpl. by rewrite length_imap.
Qed.

(** C2. When two partitions that reach the filter (loaded and not empty)
    declare different reference systems, the query fails, whatever the
    box and the zoom: the concatenation refuses to choose a reference
    system, the handler turns its exception into the HTTP error 500, and
    no feature is returned. *)
Theorem crs_mismatch_fails parts north south east west zoom i j gi gj ci cj :
  i ∈ part_indices → j ∈ part_indices →
  dict_get parts i = Some gi → dict_get parts j = Some gj →
  empty gi = false → empty gj = false →
  crs gi = Some ci → crs gj = Some cj → ci ≠ cj →
  ∃ names,
    get_geojson_by_bounds parts north south east west zoom
    = HTTPException 500 (ValueError_CannotDetermineCommonCRS names)
    ∧ ci ∈ names ∧ cj ∈ names.
Proof.
  intros Hi Hj Hgi Hgj Hei Hej Hci Hcj Hne.
  set (bbox := Geometry.box west south east north).
  assert (Hpi : gi ∈ present_parts parts).
  { apply list_elem_of_omap. exists i. by rewrite Hgi, Hei. }
  assert (Hpj : gj ∈ present_parts parts).
  { apply list_elem_of_omap. exists j. by rewrite Hgj, Hej. }
  destruct (get_common_crs_mismatch
              (map (filtered bbox zoom) (present_parts parts))
              (filtered bbox zoom gi) (filtered bbox zoom gj) ci cj)
    as (names & Hraise & Hin & Hin').
  - by apply list_elem_of_fmap_2.
  - by apply list_elem_of_fmap_2.
  - by rewrite filtered_crs.
  - by rewrite filtered_crs.
  - done.
  - exists names. split; [|done].
    rewrite get_geojson_by_bounds_eq, combine_eq. fold bbox.
    destruct (map (filtered bbox zoom) (present_parts parts)) eqn:Hm.
    + apply (f_equal length) in Hm. rewrite length_map in Hm.
      destruct (present_parts parts); [by apply elem_of_nil in Hpi|done].
    + by rewrite Hraise.
Qed.

(** ** The combined extent *)

Module ExtentFacts.
Import Geometry GeometryFacts.

Lemma env_within_refl e : env_within e e.
Proof. destruct e as [[[x y] X] Y]. repeat split; apply Qle_refl. Qed.

Lemma env_within_trans e1 e2 e3 :
  env_within e1 e2 → env_within e2 e3 → env_within e1 e3.
Proof.
  destruct e1 as [[[x1 y1] X1] Y1], e2 as [[[x2 y2] X2] Y2],
           e3 as [[[x3 y3] X3] Y3].
  intros (? & ? & ? & ?) (? & ? & ? & ?). repeat split; lra.
Qed.

Lemma env_union_l e1 e2 : env_within e1 (env_union e1 e2).
Proof.
  destruct e1 as [[[x1 y1] X1] Y1], e2 as [[[x2 y2] X2] Y2]. simpl.
  rewrite !qmin_le_iff, !le_qmax_iff. repeat split; left; apply Qle_refl.
Qed.

Lemma env_union_r e1 e2 : env_within e2 (env_union e1 e2).
Proof.
  destruct e1 as [[[x1 y1] X1] Y1], e2 as [[[x2 y2] X2] Y2]. simpl.
  rewrite !qmin_le_iff, !le_qmax_iff. repeat split; right; apply Qle_refl.
Qed.

Lemma component_minx : component minx.
Proof.
  intros [[[x1 y1] X1] Y1] [[[x2 y2] X2] Y2]. apply qmin_cases.
Qed.
Lemma component_miny : component miny.
Proof.
  intros [[[x1 y1] X1] Y1] [[[x2 y2] X2] Y2]. apply qmin_cases.
Qed.
Lemma component_maxx : component maxx.
Proof.
  intros [[[x1 y1] X1] Y1] [[[x2 y2] X2] Y2]. apply qmax_cases.
Qed.
Lemma component_maxy : component maxy.
Proof.
  intros [[[x1 y1] X1] Y1] [[[x2 y2] X2] Y2]. apply qmax_cases.
Qed.

Lemma fold_bounds_within rs e0 :
  env_within e0 (fold_bounds rs e0) ∧
  ∀ r, r ∈ rs → env_within (bounds (geometry r)) (fold_bounds rs e0).
Proof.
  revert e0. induction rs as [|r0 rs IH]; intros e0; simpl.
  - split; [apply env_within_refl|]. intros r Hr. by apply elem_of_nil in Hr.
  - destruct (IH (env_union e0 (bounds (geometry r0)))) as [H0 Hrs].
    split.
    + eapply env_within_trans; [apply env_union_l|apply H0].
    + intros r Hr. apply elem_of_cons in Hr as [->|Hr].
      * eapply env_within_trans; [apply env_union_r|apply H0].
      * by apply Hrs.
Qed.

Lemma fold_bounds_attained sel rs e0 :
  component sel →
  sel (fold_bounds rs e0) = sel e0 ∨
  ∃ r, r ∈ rs ∧ sel (fold_bounds rs e0) = sel (bounds (geometry r)).
Proof.
  intros Hsel. revert e0. induction rs as [|r0 rs IH]; intros e0; simpl.
  - by left.
  - destruct (IH (env_union e0 (bounds (geometry r0)))) as [H|(r & Hr & H)].
    + destruct (Hsel e0 (bounds (geometry r0))) as [H'|H'].
      * left. unfold fold_bounds in *. congruence.
      * right. exists r0. split; [left|]. unfold fold_bounds in *. congruence.
    + right. exists r. split; [by right|done].
Qed.

Lemma rows_bounds_None rs : rows_bounds rs = None ↔ rs = [].
Proof. by destruct rs. Qed.

(** The extent of rows contains the extent of each of them. *)
Lemma rows_bounds_within rs E r :
  rows_bounds rs = Some E → r ∈ rs → env_within (bounds (geometry r)) E.
Proof.
  destruct rs as [|r0 rs]; [done|]. simpl. intros [= <-] Hr.
  destruct (fold_bounds_within rs (bounds (geometry r0))) as [H0 Hrs].
  apply elem_of_cons in Hr as [->|Hr]; [done|by apply Hrs].
Qed.

(** Each side of the extent is that side of the extent of some row. *)
Lemma rows_bounds_attained sel rs E :
  component sel → rows_bounds rs = Some E →
  ∃ r, r ∈ rs ∧ sel E = sel (bounds (geometry r)).
Proof.
  intros Hsel. destruct rs as [|r0 rs]; [done|]. simpl. intros [= <-].
  destruct (fold_bounds_attained sel rs (bounds (geometry r0)) Hsel)
    as [H|(r & Hr & H)].
  - exists r0. split; [left|done].
  - exists r. split; [by right|done].
Qed.

End ExtentFacts.

Lemma crs_mismatch_fails_witness :
  ∃ names,
    get_geojson_by_bounds parts_mixed_crs 2 (-2) 2 (-2) 15
    = HTTPException 500 (ValueError_CannotDetermineCommonCRS names)
    ∧ "EPSG:4326" ∈ names ∧ "EPSG:3857" ∈ names.
Proof.
  apply (crs_mismatch_fails parts_mixed_crs 2 (-2) 2 (-2) 15 1 2
           (point_frame (Some "EPSG:4326") [(0, 0)]%Q)
           (point_frame (Some "EPSG:3857") [(1, 1)]%Q)
           "EPSG:4326" "EPSG:3857");
    try reflexivity; try discriminate.
  - apply list_elem_of_here.
  - apply list_elem_of_further, list_elem_of_here.
Defined.

Lemma count_is_number_of_features_witness :
  let r := mkQueryResponse
             [mkFeature 0 [("density", VNum 1)] (Geometry.Point (0, 15)%Q);
              mkFeature 1 [("density", VNum 1)] (Geometry.Point (1, 1)%Q)]
             2 (mkBounds 20 0 2 (-2)) in
  get_geojson_by_bounds parts_1_3 20 0 2 (-2) 15 = HTTP200 r ∧
  count r = length (features r).
Proof.
  intros r. split; [vm_compute; reflexivity|].
  apply (count_is_number_of_features parts_1_3 20 0 2 (-2) 15).
  vm_compute. reflexivity.
Defined.

(** C7, as the code has it.  When no feature of a loaded, non-empty
    partition intersects the box, and no two of those partitions declare
    different reference systems (so in particular when every partition is
    absent), the query answers with no feature, the count 0 and the
    bounds it was given. *)
Theorem no_match_is_empty_response parts north south east west zoom :
  crs_compatible (present_parts parts) →
  (∀ g r, g ∈ present_parts parts → r ∈ rows g →
     Geometry.intersects (geometry r) (Geometry.box west south east north) = false) →
  get_geojson_by_bounds parts north south east west zoom
  = HTTP200 (mkQueryResponse [] 0 (mkBounds north south east west)).
Proof.
  intros Hcompat Hmiss.
  rewrite get_geojson_by_bounds_eq, combine_eq.
  set (bbox := Geometry.box west south east north) in *.
  set (frames := map (filtered bbox zoom) (present_parts parts)).
  assert (Hnil : all_rows frames = []).
  { apply all_rows_nil. intros g Hg.
    apply list_elem_of_fmap in Hg as (g0 & -> & Hg0).
    apply decimate_no_rows, mask_all_false. intros r Hr. by eapply Hmiss. }
  destruct frames as [|first rest] eqn:Hframes; [done|].
  destruct (get_common_crs_compatible (first :: rest)) as [c Hc].
  { rewrite <- Hframes. apply crs_compatible_fmap; [|done].
    intros g. apply filtered_crs. }
  rewrite Hc, Hnil. done.
Qed.

Lemma no_match_is_empty_response_witness :
  get_geojson_by_bounds parts_1_3 60 50 60 50 11
  = HTTP200 (mkQueryResponse [] 0 (mkBounds 60 50 60 50)).
Proof.
  apply (no_match_is_empty_response parts_1_3 60 50 60 50 11).
  - intros g g' c c' Hg Hg' Hc Hc'.
    vm_compute in Hg, Hg'.
    repeat (apply elem_of_cons in Hg as [->|Hg]);
      [..|by apply elem_of_nil in Hg];
      repeat (apply elem_of_cons in Hg' as [->|Hg']);
      try (by apply elem_of_nil in Hg'); simpl in Hc, Hc'; congruence.
  - intros g r Hg Hr. vm_compute in Hg.
    repeat (apply elem_of_cons in Hg as [->|Hg]);
      [..|by apply elem_of_nil in Hg];
      vm_compute in Hr;
      repeat (apply elem_of_cons in Hr as [->|Hr]);
      try (by apply elem_of_nil in Hr); reflexivity.
Defined.

(** C7 as stated fails: no feature intersects the box, yet the query
    fails, because the two loaded partitions declare different reference
    systems and the concatenation of their (empty) filtered frames
    raises. *)
Lemma no_match_counterexample :
  rows (mask_intersects (point_frame (Some "EPSG:4326") [(0, 0)]%Q)
                        (Geometry.box 50 50 60 60)) = [] ∧
  rows (mask_intersects (point_frame (Some "EPSG:3857") [(1, 1)]%Q)
                        (Geometry.box 50 50 60 60)) = [] ∧
  get_geojson_by_bounds parts_mixed_crs 60 50 60 50 15
  = HTTPException 500
      (ValueError_CannotDetermineCommonCRS ["EPSG:4326"; "EPSG:3857"]).
Proof. split_and!; vm_compute; reflexivity. Qed.

(** C1, as the code has it.  [box] builds the ring through the four
    corners it is given without comparing them, so a box with north below
    south is the rectangle between the two latitudes: a point is matched
    exactly when it lies between them and between the two longitudes, and
    the query returns the same features and the same count as for the box
    with north and south exchanged, failing only where that query
    fails. *)
Theorem inverted_box_is_spanned_rectangle parts north south east west zoom :
  (north < south)%Q →
  payload (get_geojson_by_bounds parts north south east west zoom)
  = payload (get_geojson_by_bounds parts south north east west zoom) ∧
  ∀ p, Geometry.intersects (Geometry.Point p)
                           (Geometry.box west south east north) = true ↔
       (north <= snd p)%Q ∧ (snd p <= south)%Q ∧
       (((west <= fst p)%Q ∧ (fst p <= east)%Q) ∨
        ((east <= fst p)%Q ∧ (fst p <= west)%Q)).
Proof.
  intros Hinv. split.
  - rewrite !get_geojson_by_bounds_eq.
    assert (Hmask : ∀ gdf,
              filtered (Geometry.box west south east north) zoom gdf
              = filtered (Geometry.box west north east south) zoom gdf).
    { intros gdf. unfold filtered, mask_intersects. do 2 f_equal.
      induction (rows gdf) as [|r rs IH]; simpl; [done|].
      by rewrite GeometryFacts.intersects_box_swap, IH. }
    rewrite (map_ext _ _ Hmask).
    by destruct (combine _) as [[n fs]|e].
  - intros p. unfold Geometry.intersects.
    rewrite GeometryFacts.region_box. unfold Geometry.spanned.
    rewrite GeometryFacts.env_contains_iff.
    rewrite !GeometryFacts.qmin_le_iff, !GeometryFacts.le_qmax_iff.
    destruct (Qlt_le_dec east west) as [Hew|Hwe].
    + split.
      * intros (Hx & HX & Hy & HY). split_and!; [lra|lra|]. right. lra.
      * intros (Hy & HY & [[Hx HX]|[Hx HX]]); split_and!;
          GeometryFacts.pick_le.
    + split.
      * intros (Hx & HX & Hy & HY). split_and!; [lra|lra|]. left. lra.
      * intros (Hy & HY & [[Hx HX]|[Hx HX]]); split_and!;
          GeometryFacts.pick_le.
Qed.

Lemma inverted_box_is_spanned_rectangle_witness :
  payload (get_geojson_by_bounds parts_1_3 10 20 1 (-1) 15)
  = payload (get_geojson_by_bounds parts_1_3 20 10 1 (-1) 15) ∧
  ∀ p, Geometry.intersects (Geometry.Point p) (Geometry.box (-1) 20 1 10) = true ↔
       (10 <= snd p)%Q ∧ (snd p <= 20)%Q ∧
       (((-1 <= fst p)%Q ∧ (fst p <= 1)%Q) ∨ ((1 <= fst p)%Q ∧ (fst p <= -1)%Q)).
Proof.
  apply (inverted_box_is_spanned_rectangle parts_1_3 10 20 1 (-1) 15).
  reflexivity.
Defined.

(** C1 as stated fails: with north = 10 below south = 20 the point at
    latitude 15 is returned, and the count is 1. *)
Lemma inverted_box_counterexample :
  (10 < 20)%Q ∧
  get_geojson_by_bounds parts_1_3 10 20 1 (-1) 15
  = HTTP200 (mkQueryResponse
               [mkFeature 0 [("density", VNum 1)] (Geometry.Point (0, 15)%Q)]
               1 (mkBounds 10 20 1 (-1))).
Proof. split; [reflexivity|vm_compute; reflexivity]. Qed.

Lemma elem_of_all_rows frames r :
  r ∈ all_rows frames ↔ ∃ g, g ∈ frames ∧ r ∈ rows g.
Proof.
  unfold all_rows. induction frames as [|g0 frames IH]; simpl.
  - split; [intros H; by apply elem_of_nil in H|].
    intros (g & Hg & _). by apply elem_of_nil in Hg.
  - rewrite elem_of_app, IH. split.
    + intros [Hr|(g & Hg & Hr)]; [exists g0|exists g]; split; try done; [left|by right].
    + intros (g & Hg & Hr). apply elem_of_cons in Hg as [->|Hg]; [by left|].
      right. by exists g.
Qed.

Lemma length_all_rows frames :
  length (all_rows frames) = sum_list (map len frames).
Proof.
  unfold all_rows. induction frames as [|g frames IH]; simpl; [done|].
  by rewrite length_app, IH.
Qed.

Lemma present_parts_bindings parts :
  present_parts parts
  = contribution (dict_lookup parts 1) ++ contribution (dict_lookup parts 2)
    ++ contribution (dict_lookup parts 3).
Proof.
  unfold present_parts, part_indices, NUM_PARTS, dict_get, contribution.
  cbn [seq omap list_omap].
  destruct (dict_lookup parts 1) as [[g1|]|], (dict_lookup parts 2) as [[g2|]|],
           (dict_lookup parts 3) as [[g3|]|];
    try destruct (empty g1); try destruct (empty g2); try destruct (empty g3);
    reflexivity.
Qed.

Lemma imap_feature_geometry cols (rs : list Row) :
  map feature_geometry (imap (feature_of_row cols) rs) = map geometry rs.
Proof.
  apply list_eq. intros j.
  rewrite !list_lookup_fmap, list_lookup_imap. by destruct (rs !! j).
Qed.

(** C4. The features of a response are those of the per-partition
    results (the rows of the partition that intersect the box, sampled),
    for the partition bound to index 1, then the one bound to index 2,
    then the one bound to index 3, whatever the order of the keys in the
    registry, and inside a partition in the order of its rows; the query
    succeeds whenever no two of these partitions declare different
    reference systems.  In particular, when they share one reference
    system, the box covers the combined extent and the zoom is at least
    13, the response holds every feature of the partitions bound to 1, 2
    and 3 once, in that order, and counts them. *)
Theorem query_concatenates parts north south east west zoom :
  let bbox := Geometry.box west south east north in
  let loaded := contribution (dict_lookup parts 1)
                ++ contribution (dict_lookup parts 2)
                ++ contribution (dict_lookup parts 3) in
  let results := map (λ gdf, decimate zoom (mask_intersects gdf bbox)) loaded in
  (∀ r, get_geojson_by_bounds parts north south east west zoom = HTTP200 r →
        features r = imap (feature_of_row (union_columns loaded))
                          (concat (map rows results)) ∧
        map feature_geometry (features r)
        = map geometry (concat (map rows results))) ∧
  (crs_compatible loaded →
   ∃ r, get_geojson_by_bounds parts north south east west zoom = HTTP200 r) ∧
  (∀ gdf, rows (decimate zoom (mask_intersects gdf bbox)) `sublist_of` rows gdf) ∧
  ((∀ g g', g ∈ loaded → g' ∈ loaded → crs g = crs g') →
   (∀ E, rows_bounds (concat (map rows loaded)) = Some E →
         Geometry.env_within E (west, south, east, north)) →
   (13 ≤ zoom)%Z →
   ∃ r, get_geojson_by_bounds parts north south east west zoom = HTTP200 r ∧
        features r = imap (feature_of_row (union_columns loaded))
                          (concat (map rows loaded)) ∧
        map feature_geometry (features r)
        = map geometry (concat (map rows loaded)) ∧
        count r = length (concat (map rows loaded))).
Proof.
  intros bbox loaded results.
  assert (Hpres : present_parts parts = loaded) by apply present_parts_bindings.
  change results with (map (filtered bbox zoom) loaded).
  change (λ l : list GeoDataFrame, concat (map rows l)) with all_rows.
  assert (Hcols : union_columns (map (filtered bbox zoom) loaded)
                  = union_columns loaded).
  { apply union_columns_fmap. intros g. apply filtered_columns. }
  assert (Hok : crs_compatible loaded →
            get_geojson_by_bounds parts north south east west zoom
            = HTTP200 (mkQueryResponse
                (imap (feature_of_row (union_columns loaded))
                      (all_rows (map (filtered bbox zoom) loaded)))
                (length (all_rows (map (filtered bbox zoom) loaded)))
                (mkBounds north south east west))).
  { intros Hcompat. rewrite get_geojson_by_bounds_eq, combine_eq.
    fold bbox. rewrite Hpres.
    destruct (map (filtered bbox zoom) loaded) as [|first rest] eqn:Hm; [done|].
    destruct (get_common_crs_compatible (first :: rest)) as [c Hc].
    { rewrite <- Hm. apply crs_compatible_fmap; [|done].
      intros g. apply filtered_crs. }
    by rewrite Hc, Hcols. }
  split_and!.
  - rewrite get_geojson_by_bounds_eq, combine_eq. fold bbox. rewrite Hpres.
    rewrite <- Hcols. fold (all_rows (map (filtered bbox zoom) loaded)).
    destruct (map (filtered bbox zoom) loaded) as [|first rest];
      [by intros r [= <-]|].
    destruct (get_common_crs (first :: rest)); [|done].
    intros r [= <-]. cbn [features]. split; [done|].
    apply imap_feature_geometry.
  - intros Hcompat. rewrite (Hok Hcompat). by eexists.
  - intros g. apply (filtered_sublist bbox zoom g).
  - intros Hsame Hcover Hzoom.
    fold (all_rows loaded) in Hcover. fold (all_rows loaded).
    assert (Hcompat : crs_compatible loaded).
    { intros g g' c c' Hg Hg' Hc Hc'. specialize (Hsame g g' Hg Hg'). congruence. }
    assert (Hid : map (filtered bbox zoom) loaded = loaded).
    { rewrite <- (map_id loaded) at 2. apply map_ext_in. intros g Hg.
      apply list_elem_of_In in Hg. unfold filtered.
      rewrite decimate_high by done. apply mask_all_true. intros r Hr.
      assert (Hall : r ∈ all_rows loaded) by (apply elem_of_all_rows; eauto).
      destruct (rows_bounds (all_rows loaded)) as [E|] eqn:HE.
      - apply GeometryFacts.intersects_covering_box.
        eapply ExtentFacts.env_within_trans; [|by apply Hcover].
        by eapply ExtentFacts.rows_bounds_within.
      - apply ExtentFacts.rows_bounds_None in HE. rewrite HE in Hall.
        by apply elem_of_nil in Hall. }
    rewrite (Hok Hcompat), Hid. eexists. split_and!; [done..| |done].
    cbn [features]. apply imap_feature_geometry.
Qed.

Lemma query_concatenates_witness :
  ∃ r, get_geojson_by_bounds parts_3_7_1 20 0 10 (-1) 15 = HTTP200 r ∧
       features r
       = [mkFeature 0 [("density", VNum 1)] (Geometry.Point (0, 15)%Q);
          mkFeature 1 [("density", VNum 1)] (Geometry.Point (5, 5)%Q);
          mkFeature 2 [("density", VNum 1)] (Geometry.Point (1, 1)%Q)] ∧
       map feature_geometry (features r)
       = [Geometry.Point (0, 15)%Q; Geometry.Point (5, 5)%Q;
          Geometry.Point (1, 1)%Q] ∧
       count r = 3.
Proof.
  apply (proj2 (proj2 (proj2 (query_concatenates parts_3_7_1 20 0 10 (-1) 15)))).
  - intros g g' Hg Hg'. vm_compute in Hg, Hg'.
    repeat (apply elem_of_cons in Hg as [->|Hg]);
      [..|by apply elem_of_nil in Hg];
      repeat (apply elem_of_cons in Hg' as [->|Hg']);
      try (by apply elem_of_nil in Hg'); reflexivity.
  - intros E HE. vm_compute in HE. injection HE as <-.
    repeat split; discriminate.
  - lia.
Defined.

(** ** Loading *)

Section dict_facts.
Context {V : Type}.
Implicit Types d : dict V.

Lemma dict_lookup_set_eq d k v : dict_lookup (dict_set d k v) k = Some v.
Proof.
  induction d as [|[k' v'] d IH]; cbn [dict_lookup dict_set].
  - by case_decide.
  - case_decide; cbn [dict_lookup]; by case_decide.
Qed.

Lemma dict_lookup_set_ne d k v k' :
  k ≠ k' → dict_lookup (dict_set d k v) k' = dict_lookup d k'.
Proof.
  intros Hne. induction d as [|[k0 v0] d IH]; cbn [dict_lookup dict_set].
  - by case_decide.
  - case_decide; cbn [dict_lookup]; repeat case_decide; by simplify_eq.
Qed.

Lemma dict_lookup_tabulate (f : nat → V) (l : list nat) k :
  dict_lookup (map (λ j, (j, f j)) l) k
  = if decide (k ∈ l) then Some (f k) else None.
Proof.
  induction l as [|j l IH]; cbn [map dict_lookup].
  - rewrite decide_False; [done|]. intros H. by apply elem_of_nil in H.
  - destruct (decide (j = k)) as [->|Hne].
    + rewrite decide_True; [done|left].
    + rewrite IH. destruct (decide (k ∈ l)) as [Hin|Hnin].
      * rewrite decide_True; [done|by right].
      * rewrite decide_False; [done|].
        intros H. apply elem_of_cons in H as [->|H]; done.
Qed.
End dict_facts.

Lemma load_part_parts read_file st i :
  geojson_parts (load_part read_file st i)
  = dict_set (geojson_parts st) i (loaded_value read_file i).
Proof.
  unfold load_part, loaded_value. by destruct (read_file (part_path i)).
Qed.

Lemma fold_load_part_lookup read_file l st j :
  dict_lookup (geojson_parts (fold_left (load_part read_file) l st)) j
  = if decide (j ∈ l) then Some (loaded_value read_file j)
    else dict_lookup (geojson_parts st) j.
Proof.
  revert st. induction l as [|i l IH]; intros st; cbn [fold_left].
  - rewrite decide_False; [done|]. intros H. by apply elem_of_nil in H.
  - rewrite IH, load_part_parts. destruct (decide (j ∈ l)) as [Hin|Hnin].
    + rewrite decide_True; [done|by right].
    + destruct (decide (i = j)) as [->|Hne].
      * rewrite dict_lookup_set_eq, decide_True; [done|left].
      * rewrite dict_lookup_set_ne by done. rewrite decide_False; [done|].
        intros H. apply elem_of_cons in H as [->|H]; done.
Qed.

Lemma present_parts_ext parts parts' :
  (∀ j, j ∈ part_indices → dict_get parts j = dict_get parts' j) →
  present_parts parts = present_parts parts'.
Proof.
  intros H. unfold present_parts. apply list_omap_ext, Forall_Forall2_diag.
  apply Forall_forall. intros j Hj. by rewrite (H j Hj).
Qed.

(** C6. When the file of partition [i] cannot be read, the loader still
    returns: index [i] is bound to [None], every partition whose file
    reads is bound to its frame, and every later query answers as it
    would on a registry where index [i] does not exist, so the partition
    adds no feature and no failure. *)
Theorem load_failure_is_absent read_file st i e :
  i ∈ part_indices → read_file (part_path i) = Raise e →
  let st' := load_geojson_parts read_file st in
  dict_lookup (geojson_parts st') i = Some None ∧
  (∀ j gdf, j ∈ part_indices → read_file (part_path j) = Ok gdf →
            dict_lookup (geojson_parts st') j = Some (Some gdf)) ∧
  (∀ bbox zoom, part_result (geojson_parts st') bbox zoom i = []) ∧
  (∀ north south east west zoom,
     get_geojson_by_bounds (geojson_parts st') north south east west zoom
     = get_geojson_by_bounds (registry_without read_file i)
                             north south east west zoom).
Proof.
  intros Hi Hfail st'.
  assert (Hlook : ∀ j, j ∈ part_indices →
            dict_lookup (geojson_parts st') j = Some (loaded_value read_file j)).
  { intros j Hj. unfold st', load_geojson_parts.
    by rewrite fold_load_part_lookup, decide_True. }
  assert (Hnone : loaded_value read_file i = None).
  { unfold loaded_value. by rewrite Hfail. }
  split_and!.
  - by rewrite Hlook, Hnone.
  - intros j gdf Hj Hread. rewrite Hlook by done.
    unfold loaded_value. by rewrite Hread.
  - intros bbox zoom. unfold part_result, dict_get. by rewrite Hlook, Hnone.
  - intros north south east west zoom. rewrite !get_geojson_by_bounds_eq.
    rewrite (present_parts_ext (geojson_parts st') (registry_without read_file i));
      [done|].
    intros j Hj. unfold dict_get, registry_without.
    rewrite Hlook by done. rewrite dict_lookup_tabulate.
    destruct (decide (j = i)) as [->|Hne].
    + rewrite Hnone. by case_decide.
    + rewrite decide_True; [done|].
      apply list_elem_of_In, filter_In. split; [by apply list_elem_of_In|].
      by apply bool_decide_eq_true.
Qed.

Lemma load_failure_is_absent_witness :
  let st' := load_geojson_parts read_file_without_2 (mkStore [] []) in
  dict_lookup (geojson_parts st') 2 = Some None ∧
  (∀ j gdf, j ∈ part_indices → read_file_without_2 (part_path j) = Ok gdf →
            dict_lookup (geojson_parts st') j = Some (Some gdf)) ∧
  (∀ bbox zoom, part_result (geojson_parts st') bbox zoom 2 = []) ∧
  (∀ north south east west zoom,
     get_geojson_by_bounds (geojson_parts st') north south east west zoom
     = get_geojson_by_bounds (registry_without read_file_without_2 2)
                             north south east west zoom).
Proof.
  apply (load_failure_is_absent read_file_without_2 (mkStore [] []) 2
           (IOError (part_path 2))).
  - apply list_elem_of_further, list_elem_of_here.
  - vm_compute. reflexivity.
Defined.

(** ** The summary *)

Lemma fold_union_columns_elem frames acc c :
  c ∈ fold_left (λ acc g, acc ++ list_difference (columns g) acc) frames acc
  ↔ c ∈ acc ∨ ∃ g, g ∈ frames ∧ c ∈ columns g.
Proof.
  revert acc. induction frames as [|g frames IH]; intros acc; cbn [fold_left].
  - split; [by left|]. intros [?|(g & Hg & _)]; [done|]. by apply elem_of_nil in Hg.
  - rewrite IH, elem_of_app, list_elem_of_difference. split.
    + intros [[Hc|[Hc _]]|(g' & Hg' & Hc)].
      * by left.
      * right. exists g. split; [left|done].
      * right. exists g'. split; [by right|done].
    + intros [Hc|(g' & Hg' & Hc)]; [by left; left|].
      apply elem_of_cons in Hg' as [->|Hg'].
      * left. destruct (decide (c ∈ acc)); [by left|by right].
      * right. by exists g'.
Qed.

Lemma union_columns_elem frames c :
  c ∈ union_columns frames ↔ ∃ g, g ∈ frames ∧ c ∈ columns g.
Proof.
  unfold union_columns. rewrite fold_union_columns_elem.
  split; [|by right]. intros [H|H]; [|done]. by apply elem_of_nil in H.
Qed.

Lemma get_info_eq parts :
  get_info parts =
    match loaded_frames parts with
    | [] => StatusNoDataLoaded
    | _ :: _ =>
        match get_common_crs (loaded_frames parts) with
        | Ok _ =>
            InfoOk (mkInfo (length (all_rows (loaded_frames parts)))
                      (match rows_bounds (all_rows (loaded_frames parts)) with
                       | Some (minx, miny, maxx, maxy) =>
                           Some (mkBounds maxy miny maxx minx)
                       | None => None
                       end)
                      (union_columns (loaded_frames parts)))
        | Raise e => StatusError e
        end
    end.
Proof.
  unfold get_info. destruct (loaded_frames parts) as [|first rest]; [done|].
  unfold pd_concat.
  destruct (get_common_crs (first :: rest)) as [c|e] eqn:Hc; [|done].
  unfold GeoDataFrame_init.
  destruct (crs first) as [x|] eqn:Hx; [|done].
  rewrite (get_common_crs_first _ _ _ _ Hc Hx). cbn [crs].
  by rewrite decide_True.
Qed.

Lemma loaded_frames_elem parts g :
  g ∈ loaded_frames parts ↔ Some g ∈ dict_values parts ∧ empty g = false.
Proof.
  unfold loaded_frames. rewrite list_elem_of_omap. split.
  - intros ([g'|] & Hin & Hg); [|done].
    destruct (empty g') eqn:He; [done|]. by simplify_eq.
  - intros [Hin He]. exists (Some g). by rewrite He.
Qed.

Lemma loaded_frames_rows parts g : g ∈ loaded_frames parts → rows g ≠ [].
Proof.
  intros [_ He]%loaded_frames_elem Hnil. unfold empty in He.
  by rewrite Hnil in He.
Qed.

(** C8, as the code has it.  The summary is computed from the partitions
    that are loaded and not empty, without any spatial filter.  With no
    such partition the answer is the no-data status.  Otherwise, unless
    two of them declare different reference systems, the answer gives the
    number of their features, the smallest rectangle that contains the
    extent of every feature (each side is reached by some feature), and
    the column names found in any of them. *)
Theorem get_info_summary parts :
  let gdfs := loaded_frames parts in
  (gdfs = [] → get_info parts = StatusNoDataLoaded) ∧
  (gdfs ≠ [] → crs_compatible gdfs →
   ∃ info b,
     get_info parts = InfoOk info ∧
     total_features info = sum_list (map len gdfs) ∧
     (∀ c, c ∈ info_columns info ↔ ∃ g, g ∈ gdfs ∧ c ∈ columns g) ∧
     info_bounds info = Some b ∧
     (∀ g r, g ∈ gdfs → r ∈ rows g →
        Geometry.env_within (Geometry.bounds (geometry r)) (envelope_of b)) ∧
     (∃ r, r ∈ all_rows gdfs ∧
           west b = Geometry.minx (Geometry.bounds (geometry r))) ∧
     (∃ r, r ∈ all_rows gdfs ∧
           south b = Geometry.miny (Geometry.bounds (geometry r))) ∧
     (∃ r, r ∈ all_rows gdfs ∧
           east b = Geometry.maxx (Geometry.bounds (geometry r))) ∧
     (∃ r, r ∈ all_rows gdfs ∧
           north b = Geometry.maxy (Geometry.bounds (geometry r)))).
Proof.
  intros gdfs. split.
  - intros Hnil. rewrite get_info_eq. fold gdfs. by rewrite Hnil.
  - intros Hne Hcompat. rewrite get_info_eq. fold gdfs.
    destruct (get_common_crs_compatible gdfs Hcompat) as [c Hc]. rewrite Hc.
    destruct gdfs as [|first rest] eqn:Hgdfs; [done|]. rewrite <- Hgdfs in *.
    destruct (rows_bounds (all_rows gdfs)) as [[[[minx miny] maxx] maxy]|] eqn:HE.
    + eexists _, (mkBounds maxy miny maxx minx). split_and!; [done|..].
      * apply length_all_rows.
      * apply union_columns_elem.
      * done.
      * intros g r Hg Hr. unfold envelope_of. cbn [west south east north].
        eapply ExtentFacts.rows_bounds_within; [done|].
        apply elem_of_all_rows. eauto.
      * apply (ExtentFacts.rows_bounds_attained Geometry.minx _ _
                 ExtentFacts.component_minx HE).
      * apply (ExtentFacts.rows_bounds_attained Geometry.miny _ _
                 ExtentFacts.component_miny HE).
      * apply (ExtentFacts.rows_bounds_attained Geometry.maxx _ _
                 ExtentFacts.component_maxx HE).
      * apply (ExtentFacts.rows_bounds_attained Geometry.maxy _ _
                 ExtentFacts.component_maxy HE).
    + exfalso. apply ExtentFacts.rows_bounds_None in HE.
      assert (Hfirst : first ∈ gdfs) by (rewrite Hgdfs; left).
      pose proof (loaded_frames_rows parts first Hfirst) as Hrows.
      destruct (rows first) as [|r rs] eqn:Hr; [done|].
      assert (Hin : r ∈ all_rows gdfs).
      { apply elem_of_all_rows. exists first. split; [done|]. rewrite Hr. left. }
      rewrite HE in Hin. by apply elem_of_nil in Hin.
Qed.

Example get_info_parts_1_3 :
  get_info parts_1_3
  = InfoOk (mkInfo 3 (Some (mkBounds 15 1 5 0)) [geometry_column; "density"]).
Proof. vm_compute. reflexivity. Qed.

Lemma get_info_summary_witness :
  ∃ info b,
    get_info parts_1_3 = InfoOk info ∧
    total_features info = sum_list (map len (loaded_frames parts_1_3)) ∧
    (∀ c, c ∈ info_columns info ↔
          ∃ g, g ∈ loaded_frames parts_1_3 ∧ c ∈ columns g) ∧
    info_bounds info = Some b ∧
    (∀ g r, g ∈ loaded_frames parts_1_3 → r ∈ rows g →
       Geometry.env_within (Geometry.bounds (geometry r)) (envelope_of b)) ∧
    (∃ r, r ∈ all_rows (loaded_frames parts_1_3) ∧
          west b = Geometry.minx (Geometry.bounds (geometry r))) ∧
    (∃ r, r ∈ all_rows (loaded_frames parts_1_3) ∧
          south b = Geometry.miny (Geometry.bounds (geometry r))) ∧
    (∃ r, r ∈ all_rows (loaded_frames parts_1_3) ∧
          east b = Geometry.maxx (Geometry.bounds (geometry r))) ∧
    (∃ r, r ∈ all_rows (loaded_frames parts_1_3) ∧
          north b = Geometry.maxy (Geometry.bounds (geometry r))).
Proof.
  apply (proj2 (get_info_summary parts_1_3)).
  - vm_compute. discriminate.
  - intros g g' c c' Hg Hg' Hc Hc'. vm_compute in Hg, Hg'.
    repeat (apply elem_of_cons in Hg as [->|Hg]);
      [..|by apply elem_of_nil in Hg];
      repeat (apply elem_of_cons in Hg' as [->|Hg']);
      try (by apply elem_of_nil in Hg'); simpl in Hc, Hc'; congruence.
Defined.

(** C8 as stated fails: a partition that is loaded but has no feature is
    passed over like an absent one, so a registry with such a partition
    gets the no-data status and not a summary with the count 0; and two
    loaded partitions with different reference systems get an error
    status. *)
Lemma get_info_counterexample :
  dict_get parts_loaded_empty 1 = Some (point_frame (Some "EPSG:4326") []) ∧
  get_info parts_loaded_empty = StatusNoDataLoaded ∧
  get_info parts_mixed_crs
  = StatusError (ValueError_CannotDetermineCommonCRS ["EPSG:4326"; "EPSG:3857"]).
Proof. split_and!; vm_compute; reflexivity. Qed.

(** * Further properties of the loader *)

Lemma dict_set_same {V : Type} (d : dict V) k v :
  dict_lookup d k = Some v → dict_set d k v = d.
Proof.
  induction d as [|[k' v'] d IH]; cbn [dict_lookup dict_set]; [done|].
  case_decide; [by intros [= ->]; subst|]. intros Hd. by rewrite IH.
Qed.

Lemma fold_load_part_stdout read_file l st :
  stdout (fold_left (load_part read_file) l st)
  = stdout st ++ map (log_line read_file) l.
Proof.
  revert st. induction l as [|i l IH]; intros st; cbn [fold_left map].
  - by rewrite app_nil_r.
  - rewrite IH. unfold load_part, log_line.
    destruct (read_file (part_path i)); cbn [stdout]; by rewrite <- app_assoc.
Qed.

Lemma fold_load_part_fixed read_file l st :
  (∀ i, i ∈ l →
     dict_lookup (geojson_parts st) i = Some (loaded_value read_file i)) →
  geojson_parts (fold_left (load_part read_file) l st) = geojson_parts st.
Proof.
  revert st. induction l as [|i l IH]; intros st H; cbn [fold_left]; [done|].
  assert (Hi : geojson_parts (load_part read_file st i) = geojson_parts st).
  { rewrite load_part_parts. apply dict_set_same, H. left. }
  rewrite IH; [done|]. intros j Hj. rewrite Hi. apply H. by right.
Qed.

(** X1. The loader binds every index 1..NUM_PARTS, to the frame read or
    to [None], and leaves every other key of the registry as it was. *)
Theorem load_binds_exactly_the_indices read_file st j :
  dict_lookup (geojson_parts (load_geojson_parts read_file st)) j
  = if decide (1 ≤ j ≤ NUM_PARTS)
    then Some (match read_file (part_path j) with
               | Ok gdf => Some gdf
               | Raise _ => None
               end)
    else dict_lookup (geojson_parts st) j.
Proof.
  unfold load_geojson_parts. rewrite fold_load_part_lookup.
  unfold part_indices.
  destruct (decide (j ∈ seq 1 NUM_PARTS)) as [Hin|Hnin];
    rewrite elem_of_seq in *; by case_decide; try lia.
Qed.

Lemma startup_registry_eq read_file :
  geojson_parts (startup_event read_file initial_store)
  = map (λ i, (i, loaded_value read_file i)) part_indices.
Proof.
  unfold startup_event, load_geojson_parts, part_indices, NUM_PARTS.
  cbn [seq fold_left map]. by rewrite !load_part_parts.
Qed.

(** X2. Started on the empty registry, the application ends with exactly
    the indices 1, 2, 3 in the registry, in this order. *)
Theorem startup_registry read_file :
  geojson_parts (startup_event read_file initial_store)
  = [(1, loaded_value read_file 1);
     (2, loaded_value read_file 2);
     (3, loaded_value read_file 3)].
Proof. apply startup_registry_eq. Qed.

(** X3. The loader prints one line per index, in ascending order and
    after what was printed before: the number of features and the path
    of a partition that loads, the path and the exception of one that
    does not. *)
Theorem load_prints_one_line_per_part read_file st :
  stdout (load_geojson_parts read_file st)
  = stdout st ++ map (log_line read_file) part_indices.
Proof. apply fold_load_part_stdout. Qed.

(** X4. Loading again from the same files leaves the registry as the
    first load made it. *)
Theorem reload_keeps_registry read_file st :
  geojson_parts (load_geojson_parts read_file (load_geojson_parts read_file st))
  = geojson_parts (load_geojson_parts read_file st).
Proof.
  unfold load_geojson_parts at 1. apply fold_load_part_fixed.
  intros i Hi. unfold load_geojson_parts.
  by rewrite fold_load_part_lookup, decide_True.
Qed.

(** X5. After a load, the answer to a query depends on the files alone,
    not on what the registry held before. *)
Theorem query_after_load_ignores_prior_state read_file st st'
    north south east west zoom :
  get_geojson_by_bounds (geojson_parts (load_geojson_parts read_file st))
                        north south east west zoom
  = get_geojson_by_bounds (geojson_parts (load_geojson_parts read_file st'))
                          north south east west zoom.
Proof.
  rewrite !get_geojson_by_bounds_eq.
  rewrite (present_parts_ext
             (geojson_parts (load_geojson_parts read_file st))
             (geojson_parts (load_geojson_parts read_file st'))); [done|].
  intros j Hj. unfold dict_get, load_geojson_parts.
  by rewrite !fold_load_part_lookup, !decide_True.
Qed.

(** * Further properties of the query and of the summary *)

Lemma get_common_crs_ok_compatible frames c :
  get_common_crs frames = Ok c → crs_compatible frames.
Proof.
  unfold get_common_crs. intros Hok g g' c1 c2 Hg Hg' Hc1 Hc2.
  assert (H1 : c1 ∈ omap id (unique_crs frames)) by (apply declared_crs_elem; eauto).
  assert (H2 : c2 ∈ omap id (unique_crs frames)) by (apply declared_crs_elem; eauto).
  destruct (omap id (unique_crs frames)) as [|c0 [|c0' l]].
  - by apply elem_of_nil in H1.
  - apply list_elem_of_singleton in H1, H2. congruence.
  - done.
Qed.

Lemma get_common_crs_raise frames e :
  get_common_crs frames = Raise e →
  ∃ names, e = ValueError_CannotDetermineCommonCRS names.
Proof.
  unfold get_common_crs.
  destruct (omap id (unique_crs frames)) as [|c0 [|c0' l]]; [done..|].
  intros [= <-]. by eexists.
Qed.

Lemma crs_compatible_fmap_inv (f : GeoDataFrame → GeoDataFrame) frames :
  (∀ g, crs (f g) = crs g) →
  crs_compatible (map f frames) → crs_compatible frames.
Proof.
  intros Hf Hcompat g g' c c' Hg Hg' Hc Hc'.
  apply (Hcompat (f g) (f g') c c'); rewrite ?Hf; try done;
    by apply list_elem_of_fmap_2.
Qed.

(** X6. The one way a query fails is the conflict of reference systems:
    it answers with status 200 exactly when no two loaded, non-empty
    partitions declare different reference systems, and otherwise with
    status 500 and the exception of the concatenation, whatever the box
    and the zoom. *)
Theorem query_fails_only_on_crs_conflict parts north south east west zoom :
  (crs_compatible (present_parts parts) ∧
   ∃ r, get_geojson_by_bounds parts north south east west zoom = HTTP200 r) ∨
  (¬ crs_compatible (present_parts parts) ∧
   ∃ names, get_geojson_by_bounds parts north south east west zoom
            = HTTPException 500 (ValueError_CannotDetermineCommonCRS names)).
Proof.
  rewrite get_geojson_by_bounds_eq, combine_eq.
  set (bbox := Geometry.box west south east north).
  destruct (present_parts parts) as [|g0 rest] eqn:Hp.
  { left. split; [|by eexists]. intros g g' c c' Hg. by apply elem_of_nil in Hg. }
  rewrite <- Hp. clear Hp.
  destruct (map (filtered bbox zoom) (present_parts parts)) as [|first l] eqn:Hm.
  { left. split; [|by eexists].
    apply (f_equal length) in Hm. rewrite length_map in Hm.
    destruct (present_parts parts); [|done].
    intros g g' c c' Hg. by apply elem_of_nil in Hg. }
  rewrite <- Hm.
  destruct (get_common_crs (map (filtered bbox zoom) (present_parts parts)))
    as [c|e] eqn:Hc.
  - left. split; [|by eexists].
    apply (crs_compatible_fmap_inv (filtered bbox zoom)); [apply filtered_crs|].
    by eapply get_common_crs_ok_compatible.
  - right. split.
    + intros Hcompat.
      destruct (get_common_crs_compatible
                  (map (filtered bbox zoom) (present_parts parts))) as [c' Hc'].
      { apply crs_compatible_fmap; [apply filtered_crs|done]. }
      congruence.
    + destruct (get_common_crs_raise _ _ Hc) as [names ->]. by eexists.
Qed.

(** X7. The three answers of the summary: the no-data status exactly when
    no partition is loaded with features, the summary when there is one
    and no two declare different reference systems, and the error status
    with the exception of the concatenation when two do. *)
Theorem get_info_outcome parts :
  match get_info parts with
  | StatusNoDataLoaded => loaded_frames parts = []
  | InfoOk info =>
      loaded_frames parts ≠ [] ∧ crs_compatible (loaded_frames parts)
  | StatusError e =>
      loaded_frames parts ≠ [] ∧ ¬ crs_compatible (loaded_frames parts) ∧
      ∃ names, e = ValueError_CannotDetermineCommonCRS names
  end.
Proof.
  rewrite get_info_eq.
  destruct (loaded_frames parts) as [|first rest] eqn:Hl; [done|].
  rewrite <- Hl.
  destruct (get_common_crs (loaded_frames parts)) as [c|e] eqn:Hc.
  - split; [by rewrite Hl|]. by eapply get_common_crs_ok_compatible.
  - split_and!; [by rewrite Hl| |by eapply get_common_crs_raise].
    intros Hcompat. destruct (get_common_crs_compatible _ Hcompat) as [c' Hc'].
    congruence.
Qed.

(** * Further properties of the sampling *)

Lemma decimate_same_bracket zoom zoom' g :
  same_zoom_bracket zoom zoom' → decimate zoom g = decimate zoom' g.
Proof.
  intros [[H1 H2]|[[H1 H2]|[H1 H2]]].
  - by rewrite !decimate_low.
  - by rewrite !decimate_mid.
  - by rewrite !decimate_high.
Qed.

(** X8. The answer to a query depends on the zoom only through the branch
    of the sampling it selects: below 10, from 10 and below 13, from 13
    on. *)
Theorem query_depends_on_zoom_bracket parts north south east west zoom zoom' :
  same_zoom_bracket zoom zoom' →
  get_geojson_by_bounds parts north south east west zoom
  = get_geojson_by_bounds parts north south east west zoom'.
Proof.
  intros Hz. rewrite !get_geojson_by_bounds_eq.
  assert (Hf : ∀ g, filtered (Geometry.box west south east north) zoom g
                    = filtered (Geometry.box west south east north) zoom' g).
  { intros g. unfold filtered. by apply decimate_same_bracket. }
  by rewrite (map_ext _ _ Hf).
Qed.

Lemma query_depends_on_zoom_bracket_witness :
  get_geojson_by_bounds parts_1_3 20 0 10 (-1) 3
  = get_geojson_by_bounds parts_1_3 20 0 10 (-1) 9.
Proof.
  apply (query_depends_on_zoom_bracket parts_1_3 20 0 10 (-1) 3 9).
  left. split; reflexivity.
Defined.

(** X9. The sampling always keeps the first row of the filtered
    partition, so it never turns a partition with matches into one
    without. *)
Theorem decimate_keeps_first_row zoom g :
  head (rows (decimate zoom g)) = head (rows g).
Proof.
  unfold decimate, iloc_step, slice_step.
  repeat case_match; simpl; try done; by destruct (rows g).
Qed.

Lemma ceil_div_stride_upper n c :
  1 ≤ c → ceil_div n (Nat.max 1 (n / c)) ≤ 2 * c - 1.
Proof.
  intros Hc. unfold ceil_div.
  pose proof (Nat.div_mod_eq n c) as Hn.
  pose proof (Nat.mod_upper_bound n c ltac:(lia)) as Hr.
  destruct (decide (n / c = 0)) as [H0|H0].
  - rewrite H0 in *. replace (Nat.max 1 0) with 1 by lia.
    rewrite Nat.div_1_r. lia.
  - replace (Nat.max 1 (n / c)) with (n / c) by lia.
    assert (n + (n / c - 1) < n / c * (2 * c)) by nia.
    assert ((n + (n / c - 1)) / (n / c) < 2 * c)
      by (apply Nat.Div0.div_lt_upper_bound; lia).
    lia.
Qed.

Lemma ceil_div_stride_lower n c :
  1 ≤ c → c ≤ n → c ≤ ceil_div n (Nat.max 1 (n / c)).
Proof.
  intros Hc Hn. unfold ceil_div.
  pose proof (Nat.div_mod_eq n c) as Hdm.
  assert (1 ≤ n / c) by (apply Nat.div_le_lower_bound; lia).
  replace (Nat.max 1 (n / c)) with (n / c) by lia.
  apply Nat.div_le_lower_bound; [lia|]. nia.
Qed.

Lemma decimate_low_len zoom g :
  (zoom < 10)%Z →
  len (decimate zoom g) = ceil_div (len g) (Nat.max 1 (len g / 100)).
Proof.
  intros Hz. rewrite decimate_low by done.
  unfold len, iloc_step, with_rows. cbn [rows].
  apply slice_step_length. lia.
Qed.

Lemma decimate_mid_len zoom g :
  (10 ≤ zoom < 13)%Z →
  len (decimate zoom g) = ceil_div (len g) (Nat.max 1 (len g / 500)).
Proof.
  intros Hz. rewrite decimate_mid by done.
  unfold len, iloc_step, with_rows. cbn [rows].
  apply slice_step_length. lia.
Qed.

(** X10. What the sampling leaves of one partition: below zoom 10 at most
    199 rows, and at least 100 when the filtered partition has 100 or
    more; from zoom 10 and below zoom 13 at most 999 rows, and at least
    500 when it has 500 or more. *)
Theorem decimate_row_range (zoom : Z) (g : GeoDataFrame) :
  ((zoom < 10)%Z →
     len (decimate zoom g) ≤ 199 ∧
     (100 ≤ len g → 100 ≤ len (decimate zoom g))) ∧
  ((10 ≤ zoom < 13)%Z →
     len (decimate zoom g) ≤ 999 ∧
     (500 ≤ len g → 500 ≤ len (decimate zoom g))).
Proof.
  split.
  - intros Hz. rewrite decimate_low_len by done. split.
    + pose proof (ceil_div_stride_upper (len g) 100). lia.
    + intros Hn. apply ceil_div_stride_lower; [lia|done].
  - intros Hz. rewrite decimate_mid_len by done. split.
    + pose proof (ceil_div_stride_upper (len g) 500). lia.
    + intros Hn. apply ceil_div_stride_lower; [lia|done].
Qed.

Lemma decimate_row_range_witness :
  (len (decimate 5 (sample_frame 250)) ≤ 199 ∧
   (100 ≤ len (sample_frame 250) → 100 ≤ len (decimate 5 (sample_frame 250)))) ∧
  (len (decimate 11 (sample_frame 1700)) ≤ 999 ∧
   (500 ≤ len (sample_frame 1700) → 500 ≤ len (decimate 11 (sample_frame 1700)))).
Proof.
  split.
  - apply (proj1 (decimate_row_range 5 (sample_frame 250))). lia.
  - apply (proj2 (decimate_row_range 11 (sample_frame 1700))). lia.
Defined.

Lemma present_parts_length parts : length (present_parts parts) ≤ NUM_PARTS.
Proof.
  assert (H : ∀ l, length (omap (λ i, match dict_get parts i with
                                      | Some gdf => if empty gdf then None else Some gdf
                                      | None => None
                                      end) l) ≤ length l).
  { induction l as [|i l IH]; [done|]. cbn [omap list_omap length].
    destruct (dict_get parts i) as [g|]; [destruct (empty g)|];
      cbn [length]; lia. }
  unfold present_parts. etrans; [apply H|].
  unfold part_indices. by rewrite length_seq.
Qed.

Lemma all_rows_length_bound frames b :
  (∀ g, g ∈ frames → len g ≤ b) → length (all_rows frames) ≤ b * length frames.
Proof.
  unfold all_rows. induction frames as [|g frames IH]; intros H; simpl; [lia|].
  rewrite length_app.
  assert (len g ≤ b) by (apply H; left).
  assert (length (concat (map rows frames)) ≤ b * length frames).
  { apply IH. intros g' Hg'. apply H. by right. }
  unfold len in *. lia.
Qed.

Lemma query_count parts north south east west zoom r :
  get_geojson_by_bounds parts north south east west zoom = HTTP200 r →
  count r = length (all_rows (map (filtered (Geometry.box west south east north) zoom)
                                  (present_parts parts))).
Proof.
  rewrite get_geojson_by_bounds_eq, combine_eq.
  destruct (map _ (present_parts parts)) as [|first rest]; [by intros [= <-]|].
  destruct (get_common_crs (first :: rest)); [|done].
  by intros [= <-].
Qed.

(** X11. The size of a response at low zoom: below zoom 10 at most
    199 features per partition index, 597 in all; from zoom 10 and below
    zoom 13 at most 999 per index, 2997 in all. *)
Theorem query_count_bound parts north south east west zoom r :
  get_geojson_by_bounds parts north south east west zoom = HTTP200 r →
  ((zoom < 10)%Z → count r ≤ 199 * NUM_PARTS) ∧
  ((10 ≤ zoom < 13)%Z → count r ≤ 999 * NUM_PARTS).
Proof.
  intros Hr. rewrite (query_count _ _ _ _ _ _ _ Hr).
  pose proof (present_parts_length parts) as Hlen.
  set (bbox := Geometry.box west south east north).
  split; intros Hz.
  - etrans; [apply (all_rows_length_bound _ 199)|].
    + intros g Hg. apply list_elem_of_fmap in Hg as (g0 & -> & _).
      unfold filtered. rewrite decimate_low_len by done.
      pose proof (ceil_div_stride_upper (len (mask_intersects g0 bbox)) 100).
      lia.
    + rewrite length_map. nia.
  - etrans; [apply (all_rows_length_bound _ 999)|].
    + intros g Hg. apply list_elem_of_fmap in Hg as (g0 & -> & _).
      unfold filtered. rewrite decimate_mid_len by done.
      pose proof (ceil_div_stride_upper (len (mask_intersects g0 bbox)) 500).
      lia.
    + rewrite length_map. nia.
Qed.

Lemma query_count_bound_witness :
  let r := mkQueryResponse
             [mkFeature 0 [("density", VNum 1)] (Geometry.Point (0, 15)%Q);
              mkFeature 1 [("density", VNum 1)] (Geometry.Point (1, 1)%Q)]
             2 (mkBounds 20 0 2 (-2)) in
  ((5 < 10)%Z → count r ≤ 199 * NUM_PARTS) ∧
  ((10 ≤ 5 < 13)%Z → count r ≤ 999 * NUM_PARTS).
Proof.
  apply (query_count_bound parts_1_3 20 0 2 (-2) 5).
  vm_compute. reflexivity.
Defined.

(** * Further properties of the response *)

Lemma query_response parts north south east west zoom r :
  get_geojson_by_bounds parts north south east west zoom = HTTP200 r →
  let frames := map (filtered (Geometry.box west south east north) zoom)
                    (present_parts parts) in
  r = mkQueryResponse
        (imap (feature_of_row (union_columns (present_parts parts)))
              (all_rows frames))
        (length (all_rows frames))
        (mkBounds north south east west).
Proof.
  rewrite get_geojson_by_bounds_eq, combine_eq. intros Hr frames.
  assert (Hcols : union_columns frames = union_columns (present_parts parts)).
  { apply union_columns_fmap. intros g. apply filtered_columns. }
  fold frames in Hr. destruct frames as [|first rest] eqn:Hf.
  - by injection Hr as <-.
  - destruct (get_common_crs (first :: rest)); [|done].
    injection Hr as <-. by rewrite Hcols.
Qed.

(** X13. Every feature of a response has the same property names: the
    columns, other than the geometry column, of all the loaded non-empty
    partitions, whether or not the feature's own partition has the
    column. *)
Theorem feature_property_names parts north south east west zoom r f c :
  get_geojson_by_bounds parts north south east west zoom = HTTP200 r →
  f ∈ features r →
  c ∈ map fst (properties f) ↔
  c ≠ geometry_column ∧ ∃ g, g ∈ present_parts parts ∧ c ∈ columns g.
Proof.
  intros Hr. rewrite (query_response _ _ _ _ _ _ _ Hr). cbn [features].
  intros Hf. apply elem_of_lookup_imap_1 in Hf as (i & row & -> & _).
  unfold feature_of_row. cbn [properties].
  rewrite map_map. cbn [fst]. rewrite map_id.
  rewrite list_elem_of_In, filter_In, <- list_elem_of_In.
  rewrite union_columns_elem, bool_decide_eq_true. tauto.
Qed.

Lemma feature_property_names_witness :
  "density" ∈ map fst (properties
      (mkFeature 0 [("density", VNum 1)] (Geometry.Point (0, 15)%Q))) ↔
  "density" ≠ geometry_column ∧
  ∃ g, g ∈ present_parts parts_1_3 ∧ "density" ∈ columns g.
Proof.
  apply (feature_property_names parts_1_3 20 0 2 (-2) 15
           (mkQueryResponse
              [mkFeature 0 [("density", VNum 1)] (Geometry.Point (0, 15)%Q);
               mkFeature 1 [("density", VNum 1)] (Geometry.Point (1, 1)%Q)]
              2 (mkBounds 20 0 2 (-2)))).
  - vm_compute. reflexivity.
  - apply list_elem_of_here.
Defined.

(** * Further properties of the registry as the query reads it *)

Lemma dict_get_set {A : Type} (d : dict (option A)) k v j :
  dict_get (dict_set d k v) j = if decide (k = j) then v else dict_get d j.
Proof.
  unfold dict_get. case_decide as Hk.
  - subst. by rewrite dict_lookup_set_eq.
  - by rewrite dict_lookup_set_ne.
Qed.

Lemma present_parts_ext_nonempty parts parts' :
  (∀ j gdf, j ∈ part_indices → empty gdf = false →
            dict_get parts j = Some gdf ↔ dict_get parts' j = Some gdf) →
  present_parts parts = present_parts parts'.
Proof.
  intros H. unfold present_parts. apply list_omap_ext, Forall_Forall2_diag.
  apply Forall_forall. intros j Hj.
  destruct (dict_get parts j) as [g|] eqn:Hg,
           (dict_get parts' j) as [g'|] eqn:Hg'; try done.
  - destruct (empty g) eqn:He, (empty g') eqn:He'; try done.
    + apply (H j g' Hj He') in Hg'. congruence.
    + assert (Some g = Some g) as Hgg by done.
      rewrite <- Hg in Hgg at 1. apply (H j g Hj He) in Hgg. congruence.
    + assert (Some g = Some g) as Hgg by done.
      rewrite <- Hg in Hgg at 1. apply (H j g Hj He) in Hgg. congruence.
  - destruct (empty g) eqn:He; [done|].
    assert (Some g = Some g) as Hgg by done.
    rewrite <- Hg in Hgg at 1. apply (H j g Hj He) in Hgg. congruence.
  - destruct (empty g') eqn:He'; [done|].
    apply (H j g' Hj He') in Hg'. congruence.
Qed.

(** X14. A partition that is loaded without features is, for the query,
    the same as an absent one: the answer does not change when its frame
    is replaced by [None], so its reference system and its columns play
    no part. *)
Theorem empty_partition_is_absent parts i gdf north south east west zoom :
  empty gdf = true →
  get_geojson_by_bounds (dict_set parts i (Some gdf)) north south east west zoom
  = get_geojson_by_bounds (dict_set parts i None) north south east west zoom.
Proof.
  intros He. rewrite !get_geojson_by_bounds_eq.
  rewrite (present_parts_ext_nonempty (dict_set parts i (Some gdf))
                                      (dict_set parts i None)); [done|].
  intros j g Hj Hg. rewrite !dict_get_set.
  case_decide; [|done]. split; [|done]. intros [= ->]. congruence.
Qed.

Lemma empty_partition_is_absent_witness :
  get_geojson_by_bounds
    (dict_set parts_1_3 2 (Some (point_frame (Some "EPSG:3857") [])))
    20 0 10 (-1) 15
  = get_geojson_by_bounds (dict_set parts_1_3 2 None) 20 0 10 (-1) 15.
Proof.
  apply (empty_partition_is_absent parts_1_3 2
           (point_frame (Some "EPSG:3857") []) 20 0 10 (-1) 15).
  reflexivity.
Defined.

(** X15. The query reads the registry at the indices 1..NUM_PARTS only:
    binding any other key changes no answer. *)
Theorem query_ignores_other_keys parts k v north south east west zoom :
  ¬ (1 ≤ k ≤ NUM_PARTS) →
  get_geojson_by_bounds (dict_set parts k v) north south east west zoom
  = get_geojson_by_bounds parts north south east west zoom.
Proof.
  intros Hk. rewrite !get_geojson_by_bounds_eq.
  rewrite (present_parts_ext (dict_set parts k v) parts); [done|].
  intros j Hj. rewrite dict_get_set. case_decide; [|done].
  subst. unfold part_indices in Hj. apply elem_of_seq in Hj. lia.
Qed.

Lemma query_ignores_other_keys_witness :
  get_geojson_by_bounds
    (dict_set parts_1_3 7 (Some (point_frame (Some "EPSG:3857") [(0, 15)]%Q)))
    20 0 10 (-1) 15
  = get_geojson_by_bounds parts_1_3 20 0 10 (-1) 15.
Proof.
  apply (query_ignores_other_keys parts_1_3 7
           (Some (point_frame (Some "EPSG:3857") [(0, 15)]%Q)) 20 0 10 (-1) 15).
  unfold NUM_PARTS. lia.
Defined.

(** * Further properties of the box *)

Module BoxFacts.
Import Geometry GeometryFacts.

(** A box given in order is the rectangle [w..e] by [s..n]. *)
Lemma spanned_contains_ordered w s e n p :
  (w <= e)%Q → (s <= n)%Q →
  env_contains (spanned w s e n) p = true ↔
  (w <= fst p)%Q ∧ (fst p <= e)%Q ∧ (s <= snd p)%Q ∧ (snd p <= n)%Q.
Proof.
  intros Hwe Hsn. unfold spanned. rewrite env_contains_iff.
  rewrite !qmin_le_iff, !le_qmax_iff. split.
  - intros (Hx & HX & Hy & HY). split_and!.
    + destruct Hx as [[[?|?]|?]|?]; lra.
    + destruct HX as [[[?|?]|?]|?]; lra.
    + destruct Hy as [[[?|?]|?]|?]; lra.
    + destruct HY as [[[?|?]|?]|?]; lra.
  - intros (? & ? & ? & ?). split_and!; pick_le.
Qed.

Lemma spanned_overlap_ordered w s e n x y X Y :
  (w <= e)%Q → (s <= n)%Q →
  env_overlap (x, y, X, Y) (spanned w s e n) = true ↔
  (x <= e)%Q ∧ (w <= X)%Q ∧ (y <= n)%Q ∧ (s <= Y)%Q.
Proof.
  intros Hwe Hsn. unfold spanned. rewrite env_overlap_iff.
  rewrite !qmin_le_iff, !le_qmax_iff. split.
  - intros (Hx & HX & Hy & HY). split_and!.
    + destruct Hx as [[[?|?]|?]|?]; lra.
    + destruct HX as [[[?|?]|?]|?]; lra.
    + destruct Hy as [[[?|?]|?]|?]; lra.
    + destruct HY as [[[?|?]|?]|?]; lra.
  - intros (? & ? & ? & ?). split_and!; pick_le.
Qed.

Lemma spanned_contains_swap_x w s e n p :
  env_contains (spanned w s e n) p = env_contains (spanned e s w n) p.
Proof.
  apply eq_true_iff_eq. unfold spanned. rewrite !env_contains_iff.
  rewrite !qmin_le_iff, !le_qmax_iff. tauto.
Qed.

Lemma spanned_overlap_swap_x w s e n env :
  env_overlap env (spanned w s e n) = env_overlap env (spanned e s w n).
Proof.
  destruct env as [[[x y] X] Y].
  apply eq_true_iff_eq. unfold spanned. rewrite !env_overlap_iff.
  rewrite !qmin_le_iff, !le_qmax_iff. tauto.
Qed.

Lemma intersects_box_swap_x g w s e n :
  intersects g (box w s e n) = intersects g (box e s w n).
Proof.
  unfold intersects. rewrite !region_box. destruct g as [p|p ps|a b].
  - apply spanned_contains_swap_x.
  - induction (p :: ps) as [|q qs IH]; cbn [existsb]; [done|].
    by rewrite spanned_contains_swap_x, IH.
  - apply spanned_overlap_swap_x.
Qed.

(** A geometry that meets a box in order meets every box around it. *)
Lemma intersects_box_mono g w s e n w' s' e' n' :
  (w' <= w)%Q → (w <= e)%Q → (e <= e')%Q →
  (s' <= s)%Q → (s <= n)%Q → (n <= n')%Q →
  intersects g (box w s e n) = true → intersects g (box w' s' e' n') = true.
Proof.
  intros H1 H2 H3 H4 H5 H6.
  assert (Hwe' : (w' <= e')%Q) by lra. assert (Hsn' : (s' <= n')%Q) by lra.
  assert (Hpt : ∀ p, env_contains (spanned w s e n) p = true →
                     env_contains (spanned w' s' e' n') p = true).
  { intros p. rewrite !spanned_contains_ordered by done.
    intros (? & ? & ? & ?). split_and!; lra. }
  unfold intersects. rewrite !region_box. destruct g as [p|p ps|a b].
  - apply Hpt.
  - rewrite !existsb_exists. intros (q & Hq & Hin). exists q. auto.
  - destruct (bounds (Cell a b)) as [[[x y] X] Y].
    rewrite !spanned_overlap_ordered by done.
    intros (? & ? & ? & ?). split_and!; lra.
Qed.

End BoxFacts.

Lemma filtered_ext bbox bbox' zoom gdf :
  (∀ g, Geometry.intersects g bbox = Geometry.intersects g bbox') →
  filtered bbox zoom gdf = filtered bbox' zoom gdf.
Proof.
  intros H. unfold filtered, mask_intersects. do 2 f_equal.
  induction (rows gdf) as [|r rs IH]; simpl; [done|]. by rewrite H, IH.
Qed.

(** X16. The order of the two longitudes does not matter either: with
    east and west exchanged the query returns the same features and the
    same count. *)
Theorem east_west_exchange parts north south east west zoom :
  payload (get_geojson_by_bounds parts north south east west zoom)
  = payload (get_geojson_by_bounds parts north south west east zoom).
Proof.
  rewrite !get_geojson_by_bounds_eq.
  assert (Hf : ∀ gdf, filtered (Geometry.box west south east north) zoom gdf
                      = filtered (Geometry.box east south west north) zoom gdf).
  { intros gdf. apply filtered_ext. intros g.
    apply BoxFacts.intersects_box_swap_x. }
  rewrite (map_ext _ _ Hf).
  by destruct (combine _) as [[n fs]|e].
Qed.

(** * The summary and the query together *)

Lemma fold_add_crs_fmap (f : GeoDataFrame → GeoDataFrame) frames acc :
  (∀ g, crs (f g) = crs g) →
  fold_left add_crs (map f frames) acc = fold_left add_crs frames acc.
Proof.
  intros Hf. revert acc. induction frames as [|g frames IH]; intros acc; simpl;
    [done|].
  rewrite IH. unfold add_crs. by rewrite Hf.
Qed.

Lemma get_common_crs_fmap (f : GeoDataFrame → GeoDataFrame) frames :
  (∀ g, crs (f g) = crs g) →
  get_common_crs (map f frames) = get_common_crs frames.
Proof.
  intros Hf. unfold get_common_crs, unique_crs. by rewrite fold_add_crs_fmap.
Qed.

(** The response in terms of the common CRS of the partitions. *)
Lemma get_geojson_by_bounds_crs parts north south east west zoom :
  let frames := map (filtered (Geometry.box west south east north) zoom)
                    (present_parts parts) in
  get_geojson_by_bounds parts north south east west zoom =
    match get_common_crs (present_parts parts) with
    | Raise e =>
        match present_parts parts with
        | [] => HTTP200 (mkQueryResponse [] 0 (mkBounds north south east west))
        | _ :: _ => HTTPException 500 e
        end
    | Ok _ =>
        HTTP200 (mkQueryResponse
                   (imap (feature_of_row (union_columns (present_parts parts)))
                         (all_rows frames))
                   (length (all_rows frames))
                   (mkBounds north south east west))
    end.
Proof.
  intros frames. rewrite get_geojson_by_bounds_eq, combine_eq. fold frames.
  assert (Hcols : union_columns frames = union_columns (present_parts parts)).
  { apply union_columns_fmap. intros g. apply filtered_columns. }
  assert (Hcrs : get_common_crs frames = get_common_crs (present_parts parts)).
  { apply get_common_crs_fmap. intros g. apply filtered_crs. }
  rewrite <- Hcrs, <- Hcols. unfold frames.
  destruct (present_parts parts) as [|g0 rest]; [by cbn|].
  cbn [map]. by destruct (get_common_crs _).
Qed.

Lemma loaded_frames_rows_bounds parts :
  loaded_frames parts ≠ [] →
  ∃ E, rows_bounds (all_rows (loaded_frames parts)) = Some E.
Proof.
  intros Hne.
  destruct (rows_bounds (all_rows (loaded_frames parts))) as [E|] eqn:HE;
    [by eexists|].
  exfalso. apply ExtentFacts.rows_bounds_None in HE.
  destruct (loaded_frames parts) as [|first rest] eqn:Hl; [done|].
  assert (Hfirst : first ∈ loaded_frames parts) by (rewrite Hl; left).
  pose proof (loaded_frames_rows parts first Hfirst) as Hrows.
  destruct (rows first) as [|r rs] eqn:Hr; [done|].
  assert (Hin : r ∈ all_rows (first :: rest)).
  { apply elem_of_all_rows. exists first. split; [left|]. rewrite Hr. left. }
  rewrite HE in Hin. by apply elem_of_nil in Hin.
Qed.

(** X17. The bounds of a summary are in order: west is not above east and
    south is not above north, so given back to the query they are never
    an inverted box. *)
Theorem summary_bounds_in_order parts info :
  get_info parts = InfoOk info →
  ∃ b, info_bounds info = Some b ∧
       (west b <= east b)%Q ∧ (south b <= north b)%Q.
Proof.
  rewrite get_info_eq.
  destruct (loaded_frames parts) as [|first rest] eqn:Hl; [done|].
  rewrite <- Hl.
  destruct (get_common_crs (loaded_frames parts)); [|done].
  destruct (loaded_frames_rows_bounds parts) as [E HE]; [by rewrite Hl|].
  rewrite HE. destruct E as [[[x y] X] Y]. intros [= <-].
  eexists. split; [done|]. cbn [west east south north].
  destruct (ExtentFacts.rows_bounds_attained Geometry.minx _ _
              ExtentFacts.component_minx HE) as (r & Hr & Hx).
  destruct (ExtentFacts.rows_bounds_attained Geometry.miny _ _
              ExtentFacts.component_miny HE) as (r' & Hr' & Hy).
  pose proof (ExtentFacts.rows_bounds_within _ _ _ HE Hr) as Hw.
  pose proof (ExtentFacts.rows_bounds_within _ _ _ HE Hr') as Hw'.
  pose proof (GeometryFacts.bounds_ordered (geometry r)) as Ho.
  pose proof (GeometryFacts.bounds_ordered (geometry r')) as Ho'.
  destruct (Geometry.bounds (geometry r)) as [[[x1 y1] X1] Y1].
  destruct (Geometry.bounds (geometry r')) as [[[x2 y2] X2] Y2].
  cbn in Hx, Hy, Hw, Hw'. subst.
  destruct Hw as (? & ? & ? & ?), Hw' as (? & ? & ? & ?), Ho, Ho'.
  split; lra.
Qed.

Lemma summary_bounds_in_order_witness :
  ∃ b, info_bounds (mkInfo 3 (Some (mkBounds 15 1 5 0))
                           [geometry_column; "density"]) = Some b ∧
       (west b <= east b)%Q ∧ (south b <= north b)%Q.
Proof.
  apply (summary_bounds_in_order parts_1_3).
  vm_compute. reflexivity.
Defined.

(** After the start from the empty registry the summary and the query
    read the same partitions, in the same order. *)
Lemma startup_loaded_frames read_file :
  loaded_frames (geojson_parts (startup_event read_file initial_store))
  = present_parts (geojson_parts (startup_event read_file initial_store)).
Proof.
  rewrite startup_registry_eq. unfold loaded_frames, present_parts, dict_values.
  rewrite map_map. cbn [snd].
  assert (H : ∀ l, (∀ i, i ∈ l → i ∈ part_indices) →
    omap (λ v : option GeoDataFrame,
            match v with
            | Some g => if empty g then None else Some g
            | None => None
            end) (map (λ i, loaded_value read_file i) l)
    = omap (λ i, match dict_get (map (λ i, (i, loaded_value read_file i))
                                    part_indices) i with
                 | Some gdf => if empty gdf then None else Some gdf
                 | None => None
                 end) l).
  { induction l as [|i l IH]; intros Hl; [done|]. cbn [map omap list_omap].
    unfold dict_get at 1. rewrite dict_lookup_tabulate.
    rewrite decide_True by (apply Hl; left).
    rewrite IH; [done|]. intros j Hj. apply Hl. by right. }
  by apply H.
Qed.

Lemma query_covering parts north south east west zoom :
  crs_compatible (present_parts parts) →
  (∀ g r, g ∈ present_parts parts → r ∈ rows g →
     Geometry.env_within (Geometry.bounds (geometry r)) (west, south, east, north)) →
  (13 ≤ zoom)%Z →
  get_geojson_by_bounds parts north south east west zoom
  = HTTP200 (mkQueryResponse
               (imap (feature_of_row (union_columns (present_parts parts)))
                     (all_rows (present_parts parts)))
               (length (all_rows (present_parts parts)))
               (mkBounds north south east west)).
Proof.
  intros Hcompat Hcover Hzoom.
  rewrite get_geojson_by_bounds_crs.
  destruct (get_common_crs_compatible _ Hcompat) as [c ->].
  assert (Hid : map (filtered (Geometry.box west south east north) zoom)
                    (present_parts parts) = present_parts parts).
  { rewrite <- (map_id (present_parts parts)) at 2. apply map_ext_in.
    intros g Hg. apply list_elem_of_In in Hg. unfold filtered.
    rewrite decimate_high by done. apply mask_all_true. intros r Hr.
    apply GeometryFacts.intersects_covering_box. by eapply Hcover. }
  by rewrite Hid.
Qed.

(** X18. The summary and the query agree: after the start from the empty
    registry, a query at zoom 13 or more with the bounds the summary
    reports succeeds and returns every feature the summary counts, with
    the columns the summary lists. *)
Theorem summary_bounds_return_everything read_file info b zoom :
  let parts := geojson_parts (startup_event read_file initial_store) in
  get_info parts = InfoOk info → info_bounds info = Some b → (13 ≤ zoom)%Z →
  ∃ r, get_geojson_by_bounds parts (north b) (south b) (east b) (west b) zoom
       = HTTP200 r ∧
       count r = total_features info ∧
       features r = imap (feature_of_row (info_columns info))
                         (all_rows (loaded_frames parts)).
Proof.
  intros parts Hinfo Hb Hzoom.
  pose proof (startup_loaded_frames read_file) as Hsame. fold parts in Hsame.
  rewrite get_info_eq in Hinfo.
  destruct (loaded_frames parts) as [|first rest] eqn:Hl; [done|].
  rewrite <- Hl in *.
  destruct (get_common_crs (loaded_frames parts)) as [c|e] eqn:Hc; [|done].
  destruct (loaded_frames_rows_bounds parts) as [E HE]; [by rewrite Hl|].
  rewrite HE in Hinfo. destruct E as [[[x y] X] Y].
  injection Hinfo as <-. cbn [info_bounds] in Hb. injection Hb as <-.
  cbn [north south east west total_features info_columns].
  eexists. split_and!.
  - apply query_covering; [| |done].
    + rewrite <- Hsame. by eapply get_common_crs_ok_compatible.
    + intros g r Hg Hr. rewrite <- Hsame in Hg.
      eapply ExtentFacts.rows_bounds_within; [done|].
      apply elem_of_all_rows. eauto.
  - cbn [count]. by rewrite Hsame.
  - cbn [features]. by rewrite Hsame.
Qed.

Lemma summary_bounds_return_everything_witness :
  let parts := geojson_parts (startup_event read_file_without_2 initial_store) in
  ∃ r, get_geojson_by_bounds parts 15 1 5 0 13 = HTTP200 r ∧
       count r = 3 ∧
       features r = imap (feature_of_row [geometry_column; "density"])
                         (all_rows (loaded_frames parts)).
Proof.
  apply (summary_bounds_return_everything read_file_without_2
           (mkInfo 3 (Some (mkBounds 15 1 5 0)) [geometry_column; "density"])
           (mkBounds 15 1 5 0) 13).
  - vm_compute. reflexivity.
  - reflexivity.
  - lia.
Defined.

(** * Growing the box *)

Lemma filter_sublist_mono {A : Type} (f f' : A → bool) xs :
  (∀ x, f x = true → f' x = true) →
  List.filter f xs `sublist_of` List.filter f' xs.
Proof.
  intros H. induction xs as [|x xs IH]; simpl; [done|].
  destruct (f x) eqn:Hfx.
  - rewrite (H x Hfx). by apply sublist_skip.
  - destruct (f' x); [by apply sublist_cons|done].
Qed.

Lemma all_rows_sublist (f f' : GeoDataFrame → GeoDataFrame) frames :
  (∀ g, rows (f g) `sublist_of` rows (f' g)) →
  all_rows (map f frames) `sublist_of` all_rows (map f' frames).
Proof.
  intros H. unfold all_rows.
  induction frames as [|g frames IH]; simpl; [done|]. by apply sublist_app.
Qed.

Lemma feature_content_imap cols (rs : list Row) :
  map feature_content (imap (feature_of_row cols) rs)
  = map (λ r, feature_content (feature_of_row cols 0 r)) rs.
Proof.
  apply list_eq. intros j.
  rewrite !list_lookup_fmap, list_lookup_imap. by destruct (rs !! j).
Qed.

(** X19. At zoom 13 or more a larger box never loses a feature: when a
    box given in order lies inside another, the query for the outer box
    succeeds where the query for the inner one does, and returns the
    features of the inner answer, in the same order, among its own. *)
Theorem larger_box_keeps_features parts b b' zoom r :
  box_inside b b' → (13 ≤ zoom)%Z →
  get_geojson_by_bounds parts (north b) (south b) (east b) (west b) zoom
  = HTTP200 r →
  ∃ r', get_geojson_by_bounds parts (north b') (south b') (east b') (west b') zoom
        = HTTP200 r' ∧
        map feature_content (features r)
          `sublist_of` map feature_content (features r') ∧
        count r ≤ count r'.
Proof.
  intros (H1 & H2 & H3 & H4 & H5 & H6) Hzoom.
  rewrite !get_geojson_by_bounds_crs.
  destruct (get_common_crs (present_parts parts)) as [c|e].
  - intros [= <-]. eexists. split; [done|]. cbn [features count].
    assert (Hsub :
      all_rows (map (filtered (Geometry.box (west b) (south b) (east b) (north b))
                              zoom) (present_parts parts))
      `sublist_of`
      all_rows (map (filtered (Geometry.box (west b') (south b') (east b') (north b'))
                              zoom) (present_parts parts))).
    { apply all_rows_sublist. intros g. unfold filtered.
      rewrite !decimate_high by done. cbn [mask_intersects with_rows rows].
      apply filter_sublist_mono. intros row.
      by apply BoxFacts.intersects_box_mono. }
    split.
    + rewrite !feature_content_imap. by apply fmap_sublist.
    + by apply sublist_length.
  - destruct (present_parts parts); [|done].
    intros [= <-]. eexists. split; [done|]. cbn [features count]. split; [done|lia].
Qed.

Lemma larger_box_keeps_features_witness :
  ∃ r', get_geojson_by_bounds parts_1_3 20 0 10 (-2) 15 = HTTP200 r' ∧
        map feature_content
            [mkFeature 0 [("density", VNum 1)] (Geometry.Point (0, 15)%Q);
             mkFeature 1 [("density", VNum 1)] (Geometry.Point (1, 1)%Q)]
          `sublist_of` map feature_content (features r') ∧
        2 ≤ count r'.
Proof.
  apply (larger_box_keeps_features parts_1_3
           (mkBounds 20 0 2 (-2)) (mkBounds 20 0 10 (-2)) 15
           (mkQueryResponse
              [mkFeature 0 [("density", VNum 1)] (Geometry.Point (0, 15)%Q);
               mkFeature 1 [("density", VNum 1)] (Geometry.Point (1, 1)%Q)]
              2 (mkBounds 20 0 2 (-2)))).
  - unfold box_inside. cbn. repeat split; lra.
  - lia.
  - vm_compute. reflexivity.
Defined.

(** X20. A summary never reports zero features: partitions without
    features are passed over, and when none is left the answer is the
    no-data status. *)
Theorem summary_counts_at_least_one parts info :
  get_info parts = InfoOk info → 1 ≤ total_features info.
Proof.
  rewrite get_info_eq.
  destruct (loaded_frames parts) as [|first rest] eqn:Hl; [done|].
  rewrite <- Hl.
  destruct (get_common_crs (loaded_frames parts)); [|done].
  destruct (loaded_frames_rows_bounds parts) as [E HE]; [by rewrite Hl|].
  intros [= <-]. cbn [total_features].
  destruct (all_rows (loaded_frames parts)); [done|simpl; lia].
Qed.

Lemma summary_counts_at_least_one_witness :
  1 ≤ total_features (mkInfo 3 (Some (mkBounds 15 1 5 0))
                             [geometry_column; "density"]).
Proof.
  apply (summary_counts_at_least_one parts_1_3).
  vm_compute. reflexivity.
Defined.
